(** * Medical-device compliance agent: the pipeline of
      [medical_compliance_agent.py] and its data contract

    The program is a four-stage LangGraph pipeline (planner, document loader,
    AutoGen audit loop, report compiler) driven by an interactive read loop.
    Its stages are embedded below as functions in a state-and-exception monad
    over a [World] that holds the external collaborators: the completion
    service, the group-chat scheduler, the file system and the console. *)

From Stdlib Require Import List NArith Arith Bool String Ascii Lia.
Import ListNotations.

Set Implicit Arguments.

(* ===================================================================== *)
(** * Python strings and the built-in operations the program calls *)
(* ===================================================================== *)

Module Py.

(** A Python [str] is a sequence of Unicode code points. *)
Definition str := list N.

(** Literals of the source, which are all ASCII. *)
Definition py (s : string) : str := map N_of_ascii (list_ascii_of_string s).

(** The characters the source writes with an escape or between quotes. *)
Definition nl : str := [10%N].
Definition dquote : str := [34%N].

Fixpoint str_eqb (a b : str) : bool :=
  match a, b with
  | [], [] => true
  | x :: a', y :: b' => N.eqb x y && str_eqb a' b'
  | _, _ => false
  end.

(** [s.startswith(p)] *)
Fixpoint startswith (p s : str) : bool :=
  match p, s with
  | [], _ => true
  | x :: p', y :: s' => N.eqb x y && startswith p' s'
  | _ :: _, [] => false
  end.

(** [sub in s] *)
Fixpoint contains (sub s : str) : bool :=
  startswith sub s ||
  match s with
  | [] => false
  | _ :: t => contains sub t
  end.

(** [s.replace(old, new)]: every occurrence of [old], found left to right and
    without overlap, is replaced.  [skip] counts the characters of the
    occurrence just replaced that are still to be passed over. *)
Fixpoint replace_from (old new : str) (skip : nat) (s : str) : str :=
  match s with
  | [] => []
  | c :: t =>
      match skip with
      | S k => replace_from old new k t
      | O => if startswith old s
             then new ++ replace_from old new (List.length old - 1) t
             else c :: replace_from old new 0 t
      end
  end.

Definition replace (old new s : str) : str :=
  match old with
  | [] => new ++ flat_map (fun c => c :: new) s
  | _ :: _ => replace_from old new 0 s
  end.

(** [str.isspace] on one code point: the white-space table of CPython. *)
Definition is_space (c : N) : bool :=
  ((9 <=? c) && (c <=? 13) || (28 <=? c) && (c <=? 32)
   || (c =? 133) || (c =? 160) || (c =? 5760)
   || (8192 <=? c) && (c <=? 8202)
   || (c =? 8232) || (c =? 8233) || (c =? 8239) || (c =? 8287)
   || (c =? 12288))%N.

Fixpoint lstrip (s : str) : str :=
  match s with
  | [] => []
  | c :: t => if is_space c then lstrip t else s
  end.

Definition rstrip (s : str) : str := rev (lstrip (rev s)).

(** [s.strip()] *)
Definition strip (s : str) : str := rstrip (lstrip s).

(** [s.split(sep)] for a separator of one character: never the empty list. *)
Fixpoint split (sep : N) (s : str) : list str :=
  match s with
  | [] => [[]]
  | c :: t =>
      if N.eqb c sep then [] :: split sep t
      else match split sep t with
           | piece :: rest => (c :: piece) :: rest
           | [] => [[c]]
           end
  end.

(** [sep.join(l)] *)
Fixpoint join (sep : str) (l : list str) : str :=
  match l with
  | [] => []
  | [x] => x
  | x :: rest => x ++ sep ++ join sep rest
  end.

(** [str.lower] on one code point below U+0100, where the mapping is one to
    one: A-Z and the Latin-1 capitals (U+00C0..U+00DE without U+00D7) move up
    by 32.  Code points from U+0100 on have their own tables in CPython, which
    are not reproduced.  The program lowers a string only to compare it with
    "quit" and "exit", and no code point from U+0100 on lowers to a single one
    of the letters of these words (U+212A lowers to k, U+0130 to two code
    points), so that comparison is decided here as it is by the full tables. *)
Definition lower_cp (c : N) : N :=
  if ((65 <=? c) && (c <=? 90)
      || (192 <=? c) && (c <=? 222) && negb (c =? 215))%N
  then (c + 32)%N else c.

(** [s.lower()] *)
Definition lower (s : str) : str := map lower_cp s.

(** [x in l] for a list of strings *)
Definition str_in (x : str) (l : list str) : bool := existsb (str_eqb x) l.

End Py.

Import Py.


(* ===================================================================== *)
(** * Data model *)
(* ===================================================================== *)

(** One entry of AutoGen's [chat_history]. *)
Record chat_message := { role : str; speaker : str; content : str }.

(** One entry of [audit_findings]: the dict with keys "stage" and "details". *)
Record finding := { stage : str; details : str }.

Inductive BaseMessage :=
| HumanMessage (text : str)
| SystemMessage (text : str).

(** A [Dict[str, str]]: keys are unique and keep their insertion order. *)
Definition dict := list (str * str).

Fixpoint dict_set (d : dict) (k v : str) : dict :=
  match d with
  | [] => [(k, v)]
  | (k', v') :: r =>
      if str_eqb k' k then (k', v) :: r else (k', v') :: dict_set r k v
  end.

Fixpoint dict_get (d : dict) (k : str) : option str :=
  match d with
  | [] => None
  | (k', v') :: r => if str_eqb k' k then Some v' else dict_get r k
  end.

Definition keys (d : dict) : list str := map fst d.

Record ComplianceState := {
  user_request : str;
  impacted_standards : list str;
  loaded_documents : dict;
  audit_findings : list finding;
  final_report_content : str;
  messages : list BaseMessage
}.

(** The keys of [ComplianceState]. *)
Inductive field :=
| f_user_request
| f_impacted_standards
| f_loaded_documents
| f_audit_findings
| f_final_report_content
| f_messages.

(** What a node returns: a dict holding some of the keys of the state. *)
Record StateUpdate := {
  upd_user_request : option str;
  upd_impacted_standards : option (list str);
  upd_loaded_documents : option dict;
  upd_audit_findings : option (list finding);
  upd_final_report_content : option str;
  upd_messages : option (list BaseMessage)
}.

Definition no_update : StateUpdate :=
  {| upd_user_request := None; upd_impacted_standards := None;
     upd_loaded_documents := None; upd_audit_findings := None;
     upd_final_report_content := None; upd_messages := None |}.

Definition present {A} (o : option A) (f : field) : list field :=
  match o with Some _ => [f] | None => [] end.

(** The keys a returned dict holds. *)
Definition written (u : StateUpdate) : list field :=
  present (upd_user_request u) f_user_request
  ++ present (upd_impacted_standards u) f_impacted_standards
  ++ present (upd_loaded_documents u) f_loaded_documents
  ++ present (upd_audit_findings u) f_audit_findings
  ++ present (upd_final_report_content u) f_final_report_content
  ++ present (upd_messages u) f_messages.

Definition overwrite {A} (old : A) (o : option A) : A :=
  match o with Some v => v | None => old end.

(** How LangGraph folds a node's return value into the state: a key of the
    returned dict replaces the old value, except [messages], which is
    annotated with [operator.add] and is extended. *)
Definition merge (st : ComplianceState) (u : StateUpdate) : ComplianceState :=
  {| user_request := overwrite (user_request st) (upd_user_request u);
     impacted_standards :=
       overwrite (impacted_standards st) (upd_impacted_standards u);
     loaded_documents :=
       overwrite (loaded_documents st) (upd_loaded_documents u);
     audit_findings := overwrite (audit_findings st) (upd_audit_findings u);
     final_report_content :=
       overwrite (final_report_content st) (upd_final_report_content u);
     messages :=
       match upd_messages u with
       | Some l => messages st ++ l
       | None => messages st
       end |}.

(* ===================================================================== *)
(** * The world outside the program, and the monad of the stages *)
(* ===================================================================== *)

(** What [open] and [read] find at a path: a text; nothing; a file that
    cannot be opened or read (an [OSError] other than [FileNotFoundError]);
    a file that opens and whose bytes are not valid UTF-8. *)
Inductive file_status :=
| FileText (text : str)
| FileMissing
| FileUnreadable
| FileUndecodable.

(** What the program writes to standard output. *)
Inductive output :=
| Line (text : str)
    (** [print(text)] *)
| LineOfList (label : str) (l : list str)
    (** [print(f"{label}{l}")]: the list is shown by its [repr] *)
| Prompt (text : str).
    (** the prompt of [input(text)] *)

Record agent := {
  agent_name : str;
  system_message : str;
  llm_config : option str
}.

Record GroupChat := {
  agents : list agent;
  groupchat_messages : list chat_message;
  max_round : nat
}.

Inductive event :=
| Wrote (o : output)
| Completion (model system human : str)
| OpenedFile (path : str)
| InitiatedChat (g : GroupChat) (manager_llm : str) (message : str).

(** [completions] and [chats] are the outcomes the two external services
    will give to the successive requests, [None] for a request that fails;
    a service that has no outcome left fails.  [trace] is what the program
    has done so far, oldest event first. *)
Record World := {
  completions : list (option str);
  chats : list (option (list chat_message));
  files : str -> file_status;
  trace : list event
}.

(** [OSError] stands for the errors of that class other than
    [FileNotFoundError]. *)
Inductive exn :=
| ServiceError
| FileNotFoundError
| OSError
| UnicodeDecodeError
| EOFError
| GraphRecursionError.

Definition exn_eqb (a b : exn) : bool :=
  match a, b with
  | ServiceError, ServiceError
  | FileNotFoundError, FileNotFoundError
  | OSError, OSError
  | UnicodeDecodeError, UnicodeDecodeError
  | EOFError, EOFError
  | GraphRecursionError, GraphRecursionError => true
  | _, _ => false
  end.

Inductive result (A : Type) :=
| Ok (a : A)
| Raised (e : exn).

Arguments Raised {A} e.

Definition M (A : Type) : Type := World -> result A * World.

Definition ret {A} (a : A) : M A := fun w => (Ok a, w).

Definition raise {A} (e : exn) : M A := fun w => (Raised e, w).

Definition bind {A B} (m : M A) (k : A -> M B) : M B :=
  fun w =>
    match m w with
    | (Ok a, w') => k a w'
    | (Raised e, w') => (Raised e, w')
    end.

Declare Scope py_scope.
Delimit Scope py_scope with py.
Notation "x <- m ;; k" := (bind m (fun x => k))
  (at level 61, m at next level, right associativity) : py_scope.
Notation "m ;; k" := (bind m (fun _ => k))
  (at level 61, right associativity) : py_scope.
Open Scope py_scope.

(** [try: body  except e: handler] *)
Definition try_except {A} (body : M A) (e : exn) (handler : M A) : M A :=
  fun w =>
    match body w with
    | (Ok a, w') => (Ok a, w')
    | (Raised e', w') => if exn_eqb e e' then handler w' else (Raised e', w')
    end.

Definition log (ev : event) (w : World) : World :=
  {| completions := completions w; chats := chats w; files := files w;
     trace := trace w ++ [ev] |}.

Definition write (o : output) : M unit := fun w => (Ok tt, log (Wrote o) w).

Definition print (text : str) : M unit := write (Line text).

(** [(prompt | llm).invoke(...)]: one request to the completion service,
    answered by its [content]. *)
Definition chain_invoke (model system human : str) : M str :=
  fun w =>
    let w' := log (Completion model system human) w in
    match completions w with
    | Some reply :: rest =>
        (Ok reply,
         {| completions := rest; chats := chats w'; files := files w';
            trace := trace w' |})
    | None :: rest =>
        (Raised ServiceError,
         {| completions := rest; chats := chats w'; files := files w';
            trace := trace w' |})
    | [] => (Raised ServiceError, w')
    end.

(** [open(path, 'r', encoding='utf-8')] followed by [f.read()]: [open]
    raises for a missing or unreadable file, [read] for bytes that are not
    UTF-8. *)
Definition read_text (path : str) : M str :=
  fun w =>
    let w' := log (OpenedFile path) w in
    match files w path with
    | FileText t => (Ok t, w')
    | FileMissing => (Raised FileNotFoundError, w')
    | FileUnreadable => (Raised OSError, w')
    | FileUndecodable => (Raised UnicodeDecodeError, w')
    end.

(** [user_proxy.initiate_chat(manager, message=...)], answered by the
    [chat_history] of its result. *)
Definition initiate_chat (g : GroupChat) (manager_llm message : str)
  : M (list chat_message) :=
  fun w =>
    let w' := log (InitiatedChat g manager_llm message) w in
    match chats w with
    | Some history :: rest =>
        (Ok history,
         {| completions := completions w'; chats := rest; files := files w';
            trace := trace w' |})
    | None :: rest =>
        (Raised ServiceError,
         {| completions := completions w'; chats := rest; files := files w';
            trace := trace w' |})
    | [] => (Raised ServiceError, w')
    end.

(* ===================================================================== *)
(** * Configuration and the document tools *)
(* ===================================================================== *)

(** The two configurations, each known here by the model it names. *)
Definition llm_config_autogen : str := py "gpt-5-mini-2025-08-07".

Definition llm_langchain : str := py "gpt-5-nano-2025-08-07".

Definition srs_system : str :=
  py "You are a technical writer. Generate a Software Requirements Specification (SRS) document based on the user's medical device software request. Include sections: Functional Requirements, Performance Requirements, Security Requirements, Interface Requirements, and Safety Requirements with IEC 62304 traceability.".

Definition rmf_system : str :=
  py "You are a risk management specialist. Generate a Risk Management File (RMF) document based on the user's medical device software request following ISO 14971. Include a table with columns: ID, Hazard, Cause, Current Control, Risk Level. Identify potential hazards related to the proposed changes.".

Definition planner_system : str :=
  py "You are a Regulatory Affairs expert. Analyze the user's requested change and list the medical device standards that are most likely impacted and need re-auditing. Return ONLY a comma-separated list of standards (e.g., 'IEC 62304, ISO 14971').".

Definition fetch_software_requirements_spec (user_request : str) : M str :=
  chain_invoke llm_langchain srs_system user_request.

Definition fetch_risk_management_file (user_request : str) : M str :=
  chain_invoke llm_langchain rmf_system user_request.

(* ===================================================================== *)
(** * Stage 1: planning and data loading *)
(* ===================================================================== *)

Definition comma : N := 44%N.

Definition orchestrator_planner_node (state : ComplianceState)
  : M StateUpdate :=
  print (nl ++ py "--- [Stage 1] Orchestrator: Planning Compliance Scope ---") ;;
  result_content <- chain_invoke llm_langchain planner_system
                      (user_request state) ;;
  let standards_list := map strip (split comma result_content) in
  write (LineOfList (py "Impacted Standards identified: ") standards_list) ;;
  ret {| upd_user_request := None;
         upd_impacted_standards := Some standards_list;
         upd_loaded_documents := None;
         upd_audit_findings := None;
         upd_final_report_content := None;
         upd_messages := None |}.

Definition spec_file_path : str :=
  py "d:\AI_Engineer_105\test_medical_spec.md".

Definition combined_input_of (technical_input user_request : str) : str :=
  py "Technical Specification:" ++ nl ++ technical_input ++ nl ++ nl
  ++ py "User Request:" ++ nl ++ user_request.

(** [any(marker in s for s in standards)] *)
Definition any_contains (marker : str) (standards : list str) : bool :=
  existsb (contains marker) standards.

Definition qms_placeholder : str := py "QMS documentation placeholder".

Definition data_loading_node (state : ComplianceState) : M StateUpdate :=
  print (nl ++ py "--- [Stage 1] Data Loader: Fetching Technical Documentation ---") ;;
  let docs : dict := [] in
  let standards := impacted_standards state in
  technical_input <-
    try_except
      (text <- read_text spec_file_path ;;
       print (py "Loaded technical specification from " ++ spec_file_path) ;;
       ret text)
      FileNotFoundError
      (print (py "Warning: " ++ spec_file_path
              ++ py " not found, using user request only") ;;
       ret (user_request state)) ;;
  let combined_input :=
    combined_input_of technical_input (user_request state) in
  docs <-
    (if any_contains (py "62304") standards
     then print (py "Fetching Software Requirements Spec due to IEC 62304 impact...") ;;
          v <- fetch_software_requirements_spec combined_input ;;
          ret (dict_set docs (py "SRS") v)
     else ret docs) ;;
  docs <-
    (if any_contains (py "14971") standards
     then print (py "Fetching Risk Management File due to ISO 14971 impact...") ;;
          v <- fetch_risk_management_file combined_input ;;
          ret (dict_set docs (py "RMF") v)
     else ret docs) ;;
  docs <-
    (if any_contains (py "13485") standards
     then print (py "Fetching Quality Management System documentation due to ISO 13485 impact...") ;;
          ret (dict_set docs (py "QMS") qms_placeholder)
     else ret docs) ;;
  ret {| upd_user_request := None;
         upd_impacted_standards := None;
         upd_loaded_documents := Some docs;
         upd_audit_findings := None;
         upd_final_report_content := None;
         upd_messages := None |}.

(* ===================================================================== *)
(** * Stage 2: the AutoGen audit loop *)
(* ===================================================================== *)

Definition SENTINEL : str := py "AUDIT_COMPLETE".

(** [is_termination_msg] of the proxy agent. *)
Definition is_termination_msg (x : chat_message) : bool :=
  contains SENTINEL (content x).

Definition indent8 : str := py "        ".
Definition indent4 : str := py "    ".

Definition user_proxy : agent :=
  {| agent_name := py "Compliance_Manager";
     system_message := py "A human compliance manager overseeing the audit process. Terminate chat when the audit is complete and findings are summarized.";
     llm_config := None |}.

Definition software_auditor : agent :=
  {| agent_name := py "IEC62304_Auditor";
     system_message :=
       py "You are an expert IEC 62304 Medical Device Software auditor." ++ nl
       ++ indent8 ++ py "Your job is to review provided documentation against standard clauses 5-9." ++ nl
       ++ indent8 ++ py "Identify gaps where documents do not meet the standard." ++ nl
       ++ indent8 ++ py "Ensure traceability exists between requirements and risks." ++ nl
       ++ indent8 ++ py "If satisfied, state COMPLIANT. If not, explicitly state NON-COMPLIANT and the reason." ++ nl
       ++ indent8;
     llm_config := Some llm_config_autogen |}.

Definition risk_auditor : agent :=
  {| agent_name := py "ISO14971_Auditor";
     system_message :=
       py "You are an expert ISO 14971 Risk Management auditor." ++ nl
       ++ indent8 ++ py "Review the provided Risk Management File and ensure that new features identified in documentation have corresponding risk assessments." ++ nl
       ++ indent8 ++ py "Ensure mitigations are verified." ++ nl
       ++ indent8;
     llm_config := Some llm_config_autogen |}.

Definition qms_auditor : agent :=
  {| agent_name := py "ISO13485_Auditor";
     system_message :=
       py "You are an expert ISO 13485 Quality Management System auditor." ++ nl
       ++ indent8 ++ py "Review documentation for compliance with QMS requirements in clause 4-8." ++ nl
       ++ indent8 ++ py "Verify that proper procedures are followed for medical device development." ++ nl
       ++ indent8 ++ py "If satisfied, state COMPLIANT. If not, explicitly state NON-COMPLIANT and the reason." ++ nl
       ++ indent8;
     llm_config := Some llm_config_autogen |}.

Definition groupchat : GroupChat :=
  {| agents := [user_proxy; software_auditor; risk_auditor; qms_auditor];
     groupchat_messages := [];
     max_round := 4 |}.

Definition audit_prompt_of (standards_to_audit loaded_docs_text : str) : str :=
  nl
  ++ indent4 ++ py "Please conduct a compliance audit for only the following standards: "
  ++ standards_to_audit ++ py "." ++ nl
  ++ indent4 ++ nl
  ++ indent4 ++ py "Here is the documentation to review:" ++ nl
  ++ indent4 ++ loaded_docs_text ++ nl
  ++ indent4 ++ nl
  ++ indent4 ++ py "Auditors, be concise. Review your respective areas and collaborate if software changes affect risk." ++ nl
  ++ indent4 ++ py "Summarize findings as " ++ dquote ++ py "COMPLIANT" ++ dquote
  ++ py " or " ++ dquote ++ py "NON-COMPLIANT" ++ dquote
  ++ py " for key clauses." ++ nl
  ++ indent4 ++ py "End with " ++ dquote ++ py "AUDIT_COMPLETE" ++ dquote
  ++ py "." ++ nl
  ++ indent4.

Definition no_summary : str := py "No summary found.".

(** [next((msg['content'] for msg in reversed(chat_history)
          if "AUDIT_COMPLETE" in msg['content']), "No summary found.")] *)
Definition final_summary_of (chat_history : list chat_message) : str :=
  match find is_termination_msg (rev chat_history) with
  | Some msg => content msg
  | None => no_summary
  end.

Definition stage2_label : str := py "Stage 2 Audit Loop".

Definition finding_of (final_summary_msg : str) : finding :=
  {| stage := stage2_label;
     details := strip (replace SENTINEL [] final_summary_msg) |}.

Definition autogen_auditor_node (state : ComplianceState) : M StateUpdate :=
  print (nl ++ py "--- [Stage 2] AutoGen: Iterative Audit & QA Loop ---") ;;
  let loaded_docs_text :=
    join (nl ++ nl)
      (map (fun kv => py "--- Document: " ++ fst kv ++ py " ---" ++ nl
                      ++ snd kv)
           (loaded_documents state)) in
  let standards_to_audit := join (py ", ") (impacted_standards state) in
  let audit_prompt := audit_prompt_of standards_to_audit loaded_docs_text in
  chat_history <- initiate_chat groupchat llm_config_autogen audit_prompt ;;
  let final_summary_msg := final_summary_of chat_history in
  let finding := finding_of final_summary_msg in
  ret {| upd_user_request := None;
         upd_impacted_standards := None;
         upd_loaded_documents := None;
         upd_audit_findings := Some [finding];
         upd_final_report_content := None;
         upd_messages := Some [HumanMessage final_summary_msg] |}.

(* ===================================================================== *)
(** * Stage 3: report compilation *)
(* ===================================================================== *)

Definition report_template_of
  (user_request : str) (impacted_standards : list str)
  (audit_findings : list finding) : str :=
  let findings_text :=
    join nl (map (fun f => py "- " ++ details f) audit_findings) in
  nl
  ++ py "# Medical Device Compliance Audit Report" ++ nl
  ++ nl
  ++ py "**Date:** 2026-01-27" ++ nl
  ++ py "**Trigger:** User Request - " ++ dquote ++ user_request ++ dquote ++ nl
  ++ py "**Scope:** " ++ join (py ", ") impacted_standards ++ nl
  ++ nl
  ++ py "## Executive Summary" ++ nl
  ++ py "An audit was conducted on the updated technical documentation. Below are the findings from the automated specialist agents." ++ nl
  ++ nl
  ++ py "## Audit Findings Summary" ++ nl
  ++ nl
  ++ findings_text ++ nl
  ++ nl
  ++ py "## Next Actions" ++ nl
  ++ py "Review NON-COMPLIANT items and initiate CAPA (Corrective and Preventive Action) process if necessary. Update documentation before submission." ++ nl
  ++ indent4.

Definition report_compiler_node (state : ComplianceState) : M StateUpdate :=
  print (nl ++ py "--- [Stage 3] Report Compiler: Generating Final Compliance Report ---") ;;
  let report_template :=
    report_template_of (user_request state) (impacted_standards state)
      (audit_findings state) in
  print (py "Report generated successfully.") ;;
  ret {| upd_user_request := None;
         upd_impacted_standards := None;
         upd_loaded_documents := None;
         upd_audit_findings := None;
         upd_final_report_content := Some report_template;
         upd_messages := None |}.

(* ===================================================================== *)
(** * The LangGraph workflow *)
(* ===================================================================== *)

Inductive node := planner | data_loader | autogen_auditor | compiler.

Inductive target := To (n : node) | END.

Definition node_eqb (a b : node) : bool :=
  match a, b with
  | planner, planner | data_loader, data_loader
  | autogen_auditor, autogen_auditor | compiler, compiler => true
  | _, _ => false
  end.

Definition node_fn (n : node) : ComplianceState -> M StateUpdate :=
  match n with
  | planner => orchestrator_planner_node
  | data_loader => data_loading_node
  | autogen_auditor => autogen_auditor_node
  | compiler => report_compiler_node
  end.

Definition entry_point : node := planner.

Definition edges : list (node * target) :=
  [ (planner, To data_loader);
    (data_loader, To autogen_auditor);
    (autogen_auditor, To compiler);
    (compiler, END) ].

Definition successor (n : node) : option target :=
  option_map snd (find (fun e => node_eqb (fst e) n) edges).

(** LangGraph stops a run after [recursion_limit] steps, 25 unless the caller
    sets it. *)
Definition recursion_limit : nat := 25.

Fixpoint run_from (fuel : nat) (n : node) (st : ComplianceState)
  : M ComplianceState :=
  match fuel with
  | O => raise GraphRecursionError
  | S fuel' =>
      u <- node_fn n st ;;
      let st' := merge st u in
      match successor n with
      | Some (To n') => run_from fuel' n' st'
      | Some END | None => ret st'
      end
  end.

(** [app.invoke(initial_state)] *)
Definition app_invoke (initial_state : ComplianceState) : M ComplianceState :=
  run_from recursion_limit entry_point initial_state.

(* ===================================================================== *)
(** * The interactive read loop *)
(* ===================================================================== *)

Inductive control := Break | Continue.

Definition initial_state_of (user_input : str) : ComplianceState :=
  {| user_request := user_input;
     impacted_standards := [];
     loaded_documents := [];
     audit_findings := [];
     final_report_content := [];
     messages := [] |}.

Definition banner_open : str :=
  nl ++ nl ++ py "================ GENERATED FINAL REPORT ================" ++ nl.

Definition banner_close : str :=
  py "========================================================" ++ nl.

(** The body of [while True], after [input] has returned [line]. *)
Definition loop_body (line : str) : M control :=
  let user_input := strip line in
  if str_in (lower user_input) [py "quit"; py "exit"]
  then print (py "Exiting Compliance System.") ;; ret Break
  else
    match user_input with
    | [] => ret Continue
    | _ :: _ =>
        let initial_state := initial_state_of user_input in
        print (nl ++ py "Starting Compliance System with input: '" ++ user_input
               ++ py "'" ++ nl) ;;
        final_state <- app_invoke initial_state ;;
        print banner_open ;;
        print (final_report_content final_state) ;;
        print banner_close ;;
        ret Continue
    end.

Definition input_prompt : str := py "Enter your compliance request: ".

(** The read loop on the lines that standard input will deliver; [input]
    raises [EOFError] when none is left. *)
Fixpoint read_loop (stdin : list str) : M unit :=
  match stdin with
  | [] => write (Prompt input_prompt) ;; raise EOFError
  | line :: rest =>
      write (Prompt input_prompt) ;;
      c <- loop_body line ;;
      match c with
      | Break => ret tt
      | Continue => read_loop rest
      end
  end.

Definition main (stdin : list str) : M unit :=
  print (py "Medical Device Compliance Agent") ;;
  print (py "Type 'quit' or 'exit' to stop" ++ nl) ;;
  read_loop stdin.

(* ===================================================================== *)
(** * The group-chat scheduler *)
(* ===================================================================== *)

(** Modelled from the spec: the multi-agent scheduler behind
    [initiate_chat] (AutoGen's group-chat manager), which the source only
    configures.  Given the participants, a round budget and a predicate on a
    turn, it appends turns round-robin, checks the predicate after each
    appended turn, and stops at the first turn that satisfies it or when the
    budget is used up; a turn whose completion request fails is fatal.
    [replies] are the outcomes of the successive turns. *)
Fixpoint group_chat_turns (stop : chat_message -> bool)
  (participants : list agent) (budget turn_no : nat)
  (replies : list (option str)) : result (list chat_message) :=
  match budget with
  | O => Ok []
  | S budget' =>
      match replies with
      | Some text :: later =>
          let who :=
            match nth_error participants
                    (turn_no mod List.length participants) with
            | Some a => agent_name a
            | None => []
            end in
          let m := {| role := who; speaker := who; content := text |} in
          if stop m then Ok [m]
          else
            match group_chat_turns stop participants budget' (S turn_no)
                    later with
            | Ok t => Ok (m :: t)
            | Raised e => Raised e
            end
      | None :: _ | [] => Raised ServiceError
      end
  end.

(** Modelled from the spec: a conversation of the group [g], whose first
    speaker is the participant after the one that opened it. *)
Definition run_group_chat (g : GroupChat) (stop : chat_message -> bool)
  (replies : list (option str)) : result (list chat_message) :=
  group_chat_turns stop (agents g) (max_round g) 1 replies.

(* ===================================================================== *)
(** * Vocabulary of the specification *)
(* ===================================================================== *)

(** [sub] occurs in [s]. *)
Definition occurs (sub s : str) : Prop := exists a b, s = a ++ sub ++ b.

Definition all_space (s : str) : Prop := Forall (fun c => is_space c = true) s.

(** [s] neither starts nor ends with white space. *)
Definition trimmed (s : str) : Prop :=
  (forall c t, s = c :: t -> is_space c = false) /\
  (forall c t, s = t ++ [c] -> is_space c = false).

(** The fixed enumeration of document keys, each with its marker. *)
Definition document_markers : list (str * str) :=
  [ (py "SRS", py "62304"); (py "RMF", py "14971"); (py "QMS", py "13485") ].

(** The fields each stage is allowed to write. *)
Definition write_set (n : node) : list field :=
  match n with
  | planner => [f_impacted_standards]
  | data_loader => [f_loaded_documents]
  | autogen_auditor => [f_audit_findings; f_messages]
  | compiler => [f_final_report_content]
  end.

(** The two states agree on every field outside [fs]. *)
Definition agree_outside (fs : list field) (a b : ComplianceState) : Prop :=
  (In f_user_request fs \/ user_request a = user_request b) /\
  (In f_impacted_standards fs \/ impacted_standards a = impacted_standards b) /\
  (In f_loaded_documents fs \/ loaded_documents a = loaded_documents b) /\
  (In f_audit_findings fs \/ audit_findings a = audit_findings b) /\
  (In f_final_report_content fs
   \/ final_report_content a = final_report_content b) /\
  (In f_messages fs \/ messages a = messages b).

(** [u] is the lower-case command [cmd] written in some letter case. *)
Definition in_letter_case (cmd u : str) : Prop :=
  Forall2 (fun d c => c = d \/ (97 <= d <= 122 /\ c + 32 = d)%N) cmd u.

Definition is_exit_command (u : str) : Prop :=
  in_letter_case (py "quit") u \/ in_letter_case (py "exit") u.

(** The events of a trace that are requests to the completion service. *)
Definition is_completion (ev : event) : bool :=
  match ev with Completion _ _ _ => true | _ => false end.

Definition is_external (ev : event) : bool :=
  match ev with Wrote _ => false | _ => true end.

Definition succeeded {A} (r : result A) : bool :=
  match r with Ok _ => true | Raised _ => false end.


(* ===================================================================== *)
(** * Closed forms used in the statements *)
(* ===================================================================== *)

(** The documents the loader returns, given the texts the two generation
    calls produce. *)
Definition docs_for (standards : list str) (srs rmf : str) : dict :=
  (if any_contains (py "62304") standards then [(py "SRS", srs)] else [])
  ++ (if any_contains (py "14971") standards then [(py "RMF", rmf)] else [])
  ++ (if any_contains (py "13485") standards
      then [(py "QMS", qms_placeholder)] else []).

(** The keys selected by the markers that occur in some listed standard. *)
Definition selected_keys (standards : list str) : list str :=
  map fst
    (filter (fun km => any_contains (snd km) standards) document_markers).

(** The events of one successful run of the loader. *)
Definition loader_events (standards : list str) (status : file_status)
  (combined_input : str) : list event :=
  [ Wrote (Line (nl ++ py "--- [Stage 1] Data Loader: Fetching Technical Documentation ---"));
    OpenedFile spec_file_path;
    Wrote (Line
             match status with
             | FileText _ =>
                 py "Loaded technical specification from " ++ spec_file_path
             | _ =>
                 py "Warning: " ++ spec_file_path
                 ++ py " not found, using user request only"
             end) ]
  ++ (if any_contains (py "62304") standards
      then [ Wrote (Line (py "Fetching Software Requirements Spec due to IEC 62304 impact..."));
             Completion llm_langchain srs_system combined_input ]
      else [])
  ++ (if any_contains (py "14971") standards
      then [ Wrote (Line (py "Fetching Risk Management File due to ISO 14971 impact..."));
             Completion llm_langchain rmf_system combined_input ]
      else [])
  ++ (if any_contains (py "13485") standards
      then [ Wrote (Line (py "Fetching Quality Management System documentation due to ISO 13485 impact...")) ]
      else []).

Definition technical_input_of (status : file_status) (user_request : str)
  : option str :=
  match status with
  | FileText text => Some text
  | FileMissing => Some user_request
  | FileUnreadable => None
  | FileUndecodable => None
  end.

Definition loaded (docs : dict) : StateUpdate :=
  {| upd_user_request := None;
     upd_impacted_standards := None;
     upd_loaded_documents := Some docs;
     upd_audit_findings := None;
     upd_final_report_content := None;
     upd_messages := None |}.

(** The warning the loader prints when the specification file is missing. *)
Definition missing_file_warning : event :=
  Wrote (Line (py "Warning: " ++ spec_file_path
               ++ py " not found, using user request only")).

(** The sentence of the specification on the missing file, read literally:
    every generation call of the run receives the raw request. *)
Definition generation_input_is_raw_request (st : ComplianceState) (w : World)
  : Prop :=
  files w spec_file_path = FileMissing ->
  forall evs model system human,
    trace (snd (data_loading_node st w)) = trace w ++ evs ->
    In (Completion model system human) evs ->
    human = user_request st.

Definition compiled (report : str) : StateUpdate :=
  {| upd_user_request := None;
     upd_impacted_standards := None;
     upd_loaded_documents := None;
     upd_audit_findings := None;
     upd_final_report_content := Some report;
     upd_messages := None |}.

(** The two lines the compiler prints. *)
Definition compiler_events : list event :=
  [ Wrote (Line (nl ++ py "--- [Stage 3] Report Compiler: Generating Final Compliance Report ---"));
    Wrote (Line (py "Report generated successfully.")) ].

(** What the read loop writes around a pipeline run. *)
Definition starting_line (user_input : str) : str :=
  nl ++ py "Starting Compliance System with input: '" ++ user_input
  ++ py "'" ++ nl.

Definition exiting : event := Wrote (Line (py "Exiting Compliance System.")).

Definition prompted : event := Wrote (Prompt input_prompt).

(** The world after the report of [final] has been printed between the two
    banners. *)
Definition report_printed (final : ComplianceState) (w : World) : World :=
  log (Wrote (Line banner_close))
    (log (Wrote (Line (final_report_content final)))
       (log (Wrote (Line banner_open)) w)).

Definition lower_letters (cmd : str) : Prop :=
  Forall (fun d => (97 <= d <= 122)%N) cmd.

Definition is_initiated_chat (ev : event) : bool :=
  match ev with InitiatedChat _ _ _ => true | _ => false end.

(** The sentence of the specification on the inputs that are neither empty
    nor a command, read literally on the line as typed: the line starts a
    pipeline run, so the planner's request is sent. *)
Definition other_input_runs_pipeline (line : str) (w : World) : Prop :=
  line <> [] -> ~ is_exit_command line ->
  exists request,
    In (Completion llm_langchain planner_system request)
       (trace (snd (loop_body line w))).

(* ===================================================================== *)
(** * Sample inputs *)
(* ===================================================================== *)

Definition world_of (cs : list (option str))
  (hs : list (option (list chat_message))) (spec_file : file_status)
  : World :=
  {| completions := cs;
     chats := hs;
     files := fun path =>
                if str_eqb path spec_file_path then spec_file
                else FileMissing;
     trace := [] |}.

Definition turn (who text : string) : chat_message :=
  {| role := py "user"; speaker := py who; content := py text |}.

Definition sample_state : ComplianceState :=
  {| user_request := py "Add Bluetooth module";
     impacted_standards := [py "IEC 62304"];
     loaded_documents := [(py "SRS", py "The device shall pair.")];
     audit_findings := [];
     final_report_content := [];
     messages := [] |}.

Definition sample_opening : list chat_message :=
  [ turn "Compliance_Manager" "Please audit.";
    turn "IEC62304_Auditor" "Clause 5: NON-COMPLIANT. AUDIT_COMPLETE" ].

Definition sample_closing_turn : chat_message :=
  {| role := py "user"; speaker := py "ISO14971_Auditor";
     content := py "  Clause 5: COMPLIANT." ++ nl ++ py "AUDIT_COMPLETE" ++ nl |}.

Definition sample_tail : list chat_message :=
  [ turn "ISO13485_Auditor" "Nothing to add." ].

Definition sample_silent_transcript : list chat_message :=
  [ turn "Compliance_Manager" "Please audit.";
    turn "IEC62304_Auditor" "Clause 5: COMPLIANT.";
    turn "ISO14971_Auditor" "Risk file reviewed.";
    turn "ISO13485_Auditor" "Clause 4: COMPLIANT." ].

Definition sample_session_world : World :=
  world_of [Some (py "IEC 62304, ISO 13485"); Some (py "SRS text")]
    [Some (sample_opening ++ sample_closing_turn :: sample_tail)]
    FileMissing.

Definition sample_session_input : list str :=
  [[]; py "   "; py " Add Bluetooth module "; py "Exit"; py "never read"].

(* ===================================================================== *)
(** * Closed forms of the other updates, and further samples *)
(* ===================================================================== *)

Definition planned (standards_list : list str) : StateUpdate :=
  {| upd_user_request := None;
     upd_impacted_standards := Some standards_list;
     upd_loaded_documents := None;
     upd_audit_findings := None;
     upd_final_report_content := None;
     upd_messages := None |}.

Definition audited (final_summary_msg : str) : StateUpdate :=
  {| upd_user_request := None;
     upd_impacted_standards := None;
     upd_loaded_documents := None;
     upd_audit_findings := Some [finding_of final_summary_msg];
     upd_final_report_content := None;
     upd_messages := Some [HumanMessage final_summary_msg] |}.

(** The banners the first two stages and the coordinator print. *)
Definition planner_banner : event :=
  Wrote (Line (nl ++ py "--- [Stage 1] Orchestrator: Planning Compliance Scope ---")).

Definition loader_banner : event :=
  Wrote (Line (nl ++ py "--- [Stage 1] Data Loader: Fetching Technical Documentation ---")).

Definition auditor_banner : event :=
  Wrote (Line (nl ++ py "--- [Stage 2] AutoGen: Iterative Audit & QA Loop ---")).

(** The request the coordinator sends for the state [st]. *)
Definition audit_prompt_for (st : ComplianceState) : str :=
  audit_prompt_of
    (join (py ", ") (impacted_standards st))
    (join (nl ++ nl)
       (map (fun kv => py "--- Document: " ++ fst kv ++ py " ---" ++ nl
                       ++ snd kv)
            (loaded_documents st))).

(** The [i]-th outcome of the completion service, when it is a reply. *)
Definition reply_at (w : World) (i : nat) : option str :=
  match nth_error (completions w) i with
  | Some (Some reply) => Some reply
  | _ => None
  end.

(** The outcome of the next request to a service is a failure. *)
Definition next_fails {A} (outcomes : list (option A)) : Prop :=
  nth_error outcomes 0 = None \/ nth_error outcomes 0 = Some None.

Definition sample_request_state : ComplianceState :=
  initial_state_of (py "Add Bluetooth module").

(** A text without white space and without comma, such as the markers. *)
Definition plain (m : str) : Prop :=
  m <> [] /\ Forall (fun c => is_space c = false /\ c <> comma) m.

(** The error with which reading a file of this status fails: the one that
    [except FileNotFoundError] does not catch. *)
Definition read_failure (status : file_status) : option exn :=
  match status with
  | FileUnreadable => Some OSError
  | FileUndecodable => Some UnicodeDecodeError
  | FileText _ | FileMissing => None
  end.
(* ===================================================================== *)
(** * Facts about the string operations *)
(* ===================================================================== *)

Section StringFacts.

Lemma str_eqb_eq (a b : str) : str_eqb a b = true <-> a = b.
Proof.
  revert b; induction a as [|x a IH]; destruct b as [|y b]; simpl.
  - tauto.
  - split; discriminate.
  - split; discriminate.
  - rewrite andb_true_iff, N.eqb_eq, IH.
    split; [intros [-> ->]; reflexivity | intros E; inversion E; auto].
Qed.

Lemma str_eqb_refl (a : str) : str_eqb a a = true.
Proof. apply str_eqb_eq; reflexivity. Qed.

Lemma startswith_prefix (p s : str) :
  startswith p s = true <-> exists r, s = p ++ r.
Proof.
  revert s; induction p as [|x p IH]; intros s; simpl.
  - split; [intros _; exists s; reflexivity | reflexivity].
  - destruct s as [|y s].
    + split; [discriminate | intros [r E]; discriminate].
    + rewrite andb_true_iff, N.eqb_eq, IH. split.
      * intros [-> [r ->]]; exists r; reflexivity.
      * intros [r E]; inversion E; subst; split; [reflexivity | exists r; reflexivity].
Qed.

Lemma contains_occurs (sub s : str) : contains sub s = true <-> occurs sub s.
Proof.
  unfold occurs. induction s as [|c s IH].
  - simpl. rewrite orb_false_r, startswith_prefix. split.
    + intros [r E]; exists [], r; exact E.
    + intros [a [b E]]. destruct a; [exists b; exact E | discriminate].
  - cbn [contains]. rewrite orb_true_iff, startswith_prefix, IH. split.
    + intros [[r E] | [a [b E]]].
      * exists [], r; exact E.
      * exists (c :: a), b; simpl; rewrite E; reflexivity.
    + intros [a [b E]]. destruct a as [|x a].
      * left; exists b; exact E.
      * right; inversion E; subst; exists a, b; reflexivity.
Qed.

Lemma contains_absent (sub s : str) :
  contains sub s = false <-> ~ occurs sub s.
Proof.
  rewrite <- contains_occurs. destruct (contains sub s).
  - split; [discriminate | intros H; exfalso; apply H; reflexivity].
  - split; [intros _ E; discriminate | reflexivity].
Qed.

(** ** [replace] *)

Lemma replace_from_skip (old new : str) (k : nat) (s : str) :
  replace_from old new k s = replace_from old new 0 (skipn k s).
Proof.
  revert k; induction s as [|c s IH]; intros [|k]; try reflexivity.
  cbn [replace_from skipn]. apply IH.
Qed.

(** The equation [replace] is read by: an occurrence at the front is
    replaced and the scan resumes behind it, otherwise one character is
    copied. *)
Lemma replace_step (o : N) (os new : str) (c : N) (t : str) :
  replace (o :: os) new (c :: t) =
  if startswith (o :: os) (c :: t)
  then new ++ replace (o :: os) new (skipn (List.length (o :: os)) (c :: t))
  else c :: replace (o :: os) new t.
Proof.
  unfold replace. cbn [replace_from]. destruct (startswith (o :: os) (c :: t)).
  - rewrite replace_from_skip. cbn [List.length skipn Nat.sub].
    rewrite Nat.sub_0_r. reflexivity.
  - reflexivity.
Qed.

Lemma replace_absent (old new s : str) :
  old <> [] -> contains old s = false -> replace old new s = s.
Proof.
  destruct old as [|o os]; [congruence | intros _].
  induction s as [|c s IH]; intros H; [reflexivity|].
  rewrite replace_step. cbn [contains] in H. apply orb_false_iff in H.
  destruct H as [H1 H2]. rewrite H1, IH by exact H2. reflexivity.
Qed.

(** ** [strip] *)

Lemma lstrip_spaces (l s : str) : all_space l -> lstrip (l ++ s) = lstrip s.
Proof.
  induction 1 as [|c l Hc _ IH]; simpl; [reflexivity|]. rewrite Hc. exact IH.
Qed.

Lemma lstrip_split (s : str) :
  exists l, s = l ++ lstrip s /\ all_space l /\
            (forall c t, lstrip s = c :: t -> is_space c = false).
Proof.
  induction s as [|c s (l & E & Hl & Hh)].
  - exists []. repeat split; [constructor | intros * H; discriminate].
  - simpl. destruct (is_space c) eqn:Hc.
    + exists (c :: l). repeat split.
      * simpl; congruence.
      * constructor; assumption.
      * exact Hh.
    + exists []. repeat split; [constructor|].
      intros c' t E'; inversion E'; subst; exact Hc.
Qed.

Lemma lstrip_fixed (c : N) (t : str) :
  is_space c = false -> lstrip (c :: t) = c :: t.
Proof. intros H; simpl; rewrite H; reflexivity. Qed.

Lemma all_space_rev (s : str) : all_space s -> all_space (rev s).
Proof. unfold all_space. apply Forall_rev. Qed.

Lemma rstrip_spaces (s r : str) : all_space r -> rstrip (s ++ r) = rstrip s.
Proof.
  intros H. unfold rstrip. rewrite rev_app_distr, lstrip_spaces; auto using all_space_rev.
Qed.

Lemma rstrip_split (s : str) :
  exists r, s = rstrip s ++ r /\ all_space r /\
            (forall c t, rstrip s = t ++ [c] -> is_space c = false).
Proof.
  destruct (lstrip_split (rev s)) as (l & E & Hl & Hh).
  exists (rev l). unfold rstrip. repeat split.
  - rewrite <- rev_app_distr, <- E, rev_involutive. reflexivity.
  - apply all_space_rev; exact Hl.
  - intros c t Ht. apply (Hh c (rev t)).
    rewrite <- (rev_involutive (lstrip (rev s))), Ht, rev_app_distr.
    reflexivity.
Qed.

Lemma rstrip_keeps_head (s : str) (c : N) (t : str) :
  rstrip s = c :: t -> exists t', s = c :: t'.
Proof.
  destruct (rstrip_split s) as (r & E & _ & _). intros H.
  rewrite H in E. exists (t ++ r). exact E.
Qed.

(** [strip] removes a run of white space at each end and nothing else, and
    what is left starts and ends with a character that is not white space. *)
Lemma strip_spec (s : str) :
  exists l r, s = l ++ strip s ++ r /\ all_space l /\ all_space r /\
              trimmed (strip s).
Proof.
  destruct (lstrip_split s) as (l & El & Hl & Hh).
  destruct (rstrip_split (lstrip s)) as (r & Er & Hr & Ht).
  exists l, r. unfold strip. repeat split; auto.
  - rewrite <- Er. exact El.
  - intros c t E. destruct (rstrip_keeps_head _ E) as [t' E'].
    apply (Hh c t'). exact E'.
Qed.

Lemma rstrip_fixed (s : str) (c : N) :
  is_space c = false -> rstrip (s ++ [c]) = s ++ [c].
Proof.
  intros H. unfold rstrip. rewrite rev_app_distr. simpl. rewrite H.
  simpl. rewrite rev_involutive. reflexivity.
Qed.

Lemma strip_trimmed (u : str) : trimmed u -> strip u = u.
Proof.
  intros [Hh Ht]. unfold strip. destruct u as [|c t]; [reflexivity|].
  rewrite lstrip_fixed by (eapply Hh; reflexivity).
  destruct (exists_last (l := c :: t)) as (t' & c' & E); [discriminate|].
  rewrite E. apply rstrip_fixed. eapply Ht. exact E.
Qed.

Lemma strip_padded (l u r : str) :
  all_space l -> all_space r -> trimmed u -> strip (l ++ u ++ r) = strip u.
Proof.
  intros Hl Hr Hu. rewrite (strip_trimmed Hu). unfold strip.
  rewrite lstrip_spaces by exact Hl.
  destruct u as [|c t].
  - simpl. destruct (lstrip_split r) as (l' & E & Hl' & Hh').
    unfold rstrip.
    assert (Hs : all_space (lstrip r)).
    { unfold all_space in *. rewrite E in Hr. apply Forall_app in Hr. tauto. }
    destruct (lstrip r) as [|x xs] eqn:Ex; [reflexivity|].
    inversion Hs; subst. rewrite (Hh' x xs eq_refl) in *. discriminate.
  - destruct Hu as [Hh Ht]. cbn [app]. rewrite lstrip_fixed by (eapply Hh; reflexivity).
    change (c :: t ++ r) with ((c :: t) ++ r). rewrite rstrip_spaces by exact Hr.
    destruct (exists_last (l := c :: t)) as (t' & c' & E); [discriminate|].
    rewrite E. apply rstrip_fixed. eapply Ht. exact E.
Qed.

Lemma strip_idempotent (s : str) : strip (strip s) = strip s.
Proof.
  destruct (strip_spec s) as (l & r & _ & _ & _ & H). apply strip_trimmed, H.
Qed.

Lemma strip_all_space (s : str) : all_space s -> strip s = [].
Proof.
  intros H. rewrite <- (app_nil_r s).
  change (s ++ []) with (s ++ [] ++ []).
  assert (T : trimmed [])
    by (split; intros c t E; [discriminate | destruct t; discriminate]).
  rewrite (strip_padded H (Forall_nil _) T). reflexivity.
Qed.

(** ** [split] and [join] *)

Lemma split_nonempty (sep : N) (s : str) : split sep s <> [].
Proof.
  induction s as [|c s IH]; simpl; [discriminate|].
  destruct (N.eqb c sep); [discriminate|].
  destruct (split sep s); discriminate.
Qed.

Lemma join_split (sep : N) (s : str) : join [sep] (split sep s) = s.
Proof.
  induction s as [|c s IH]; [reflexivity|]. simpl.
  destruct (N.eqb_spec c sep) as [->|Hne].
  - pose proof (split_nonempty sep s) as Hn.
    destruct (split sep s) as [|p ps]; [congruence|].
    cbn [join app] in *. rewrite IH. reflexivity.
  - pose proof (split_nonempty sep s) as Hn.
    destruct (split sep s) as [|p ps]; [congruence|].
    destruct ps as [|q qs]; cbn [join app] in *; rewrite <- IH; reflexivity.
Qed.

Lemma split_pieces_free (sep : N) (s : str) :
  Forall (fun piece => ~ In sep piece) (split sep s).
Proof.
  induction s as [|c s IH]; simpl.
  - constructor; [intros [] | constructor].
  - destruct (N.eqb_spec c sep) as [->|Hne].
    + constructor; [intros [] | exact IH].
    + destruct (split sep s) as [|p ps].
      * constructor; [|constructor]. intros [E|[]]. congruence.
      * inversion IH; subst. constructor; [|assumption].
        intros [E|E]; [congruence | contradiction].
Qed.

End StringFacts.

(** ** The operations on sample texts *)

Example replace_ex :
  replace (py "AUDIT_COMPLETE") [] (py "ok AUDIT_COMPLETE. AUDIT_COMPLETE")
  = py "ok . ".
Proof. reflexivity. Qed.

Example replace_overlap_ex : replace (py "aa") (py "b") (py "aaa") = py "ba".
Proof. reflexivity. Qed.

Example replace_leaves_sentinel_ex :
  replace (py "AUDIT_COMPLETE") [] (py "AUDIT_AUDIT_COMPLETECOMPLETE")
  = py "AUDIT_COMPLETE".
Proof. reflexivity. Qed.

Example strip_ex : strip (nl ++ py "  a b " ++ nl) = py "a b".
Proof. reflexivity. Qed.

Example split_ex :
  map strip (split 44 (py " IEC 62304 ,ISO 14971,"))
  = [py "IEC 62304"; py "ISO 14971"; []].
Proof. reflexivity. Qed.

Example split_empty_ex : split 44 ([]) = [[]].
Proof. reflexivity. Qed.

Example join_ex : join (py ", ") [py "a"; py "b"; py "c"] = py "a, b, c".
Proof. reflexivity. Qed.

Example lower_ex : lower (py "QuIt") = py "quit".
Proof. reflexivity. Qed.

Example contains_ex :
  contains (py "62304") (py "IEC 62304:2006") = true /\
  contains (py "62304") (py "IEC 6230") = false.
Proof. split; reflexivity. Qed.

(* ===================================================================== *)
(** * Stage 2: extraction of the findings summary *)
(* ===================================================================== *)

Section AuditCoordinator.

Lemma find_skips (A : Type) (f : A -> bool) (a b : list A) :
  forallb (fun x => negb (f x)) a = true -> find f (a ++ b) = find f b.
Proof.
  induction a as [|x a IH]; simpl; [reflexivity|].
  intros H. apply andb_true_iff in H. destruct H as [Hx Ha].
  destruct (f x); [discriminate | exact (IH Ha)].
Qed.

Lemma forallb_rev (A : Type) (f : A -> bool) (l : list A) :
  forallb f (rev l) = forallb f l.
Proof.
  induction l as [|x l IH]; [reflexivity|]. simpl.
  rewrite forallb_app, IH. simpl. rewrite andb_true_r. apply andb_comm.
Qed.

(** The reverse scan returns the last message that carries the sentinel. *)
Lemma final_summary_last (pre post : list chat_message) (m : chat_message) :
  is_termination_msg m = true ->
  forallb (fun x => negb (is_termination_msg x)) post = true ->
  final_summary_of (pre ++ m :: post) = content m.
Proof.
  intros Hm Hpost. unfold final_summary_of.
  rewrite rev_app_distr. cbn [rev]. rewrite <- app_assoc.
  rewrite find_skips by (rewrite forallb_rev; exact Hpost).
  cbn [app find]. rewrite Hm. reflexivity.
Qed.

Lemma final_summary_fallback (history : list chat_message) :
  forallb (fun x => negb (is_termination_msg x)) history = true ->
  final_summary_of history = no_summary.
Proof.
  intros H. unfold final_summary_of.
  rewrite <- (app_nil_r (rev history)).
  rewrite find_skips by (rewrite forallb_rev; exact H). reflexivity.
Qed.

Lemma fallback_details : details (finding_of no_summary) = no_summary.
Proof. vm_compute. reflexivity. Qed.

(** One run of the node when the scheduler returns [history]. *)
Lemma autogen_auditor_node_run (st : ComplianceState) (w : World)
  (history : list chat_message) (rest : list (option (list chat_message))) :
  chats w = Some history :: rest ->
  autogen_auditor_node st w =
  (Ok {| upd_user_request := None;
         upd_impacted_standards := None;
         upd_loaded_documents := None;
         upd_audit_findings := Some [finding_of (final_summary_of history)];
         upd_final_report_content := None;
         upd_messages := Some [HumanMessage (final_summary_of history)] |},
   {| completions := completions w;
      chats := rest;
      files := files w;
      trace :=
        (trace w
         ++ [Wrote (Line (nl ++ py "--- [Stage 2] AutoGen: Iterative Audit & QA Loop ---"))])
        ++ [InitiatedChat groupchat llm_config_autogen
              (audit_prompt_of
                 (join (py ", ") (impacted_standards st))
                 (join (nl ++ nl)
                    (map (fun kv => py "--- Document: " ++ fst kv
                                    ++ py " ---" ++ nl ++ snd kv)
                         (loaded_documents st))))] |}).
Proof.
  intros H. destruct w as [cs hs fs tr]. cbn [chats] in H. subst hs.
  reflexivity.
Qed.

End AuditCoordinator.

(** C1. When some message of the transcript carries "AUDIT_COMPLETE", the
    coordinator's finding is the text of the last such message, whatever its
    role and speaker, with the sentinel removed and the white space at both
    ends trimmed; sentinel-bearing messages before it play no part. *)
Theorem C1_last_sentinel_message_is_extracted :
  forall (st : ComplianceState) (w : World)
         (pre post : list chat_message) (m : chat_message)
         (rest : list (option (list chat_message))),
    chats w = Some (pre ++ m :: post) :: rest ->
    contains SENTINEL (content m) = true ->
    forallb (fun x => negb (contains SENTINEL (content x))) post = true ->
    exists u w',
      autogen_auditor_node st w = (Ok u, w') /\
      upd_audit_findings u =
        Some [ {| stage := stage2_label;
                  details := strip (replace SENTINEL [] (content m)) |} ] /\
      trimmed (strip (replace SENTINEL [] (content m))) /\
      exists l r, replace SENTINEL [] (content m)
                  = l ++ strip (replace SENTINEL [] (content m)) ++ r
                  /\ all_space l /\ all_space r.
Proof.
  intros st w pre post m rest Hw Hm Hpost.
  eexists. eexists. split; [apply (autogen_auditor_node_run st w Hw)|].
  cbn [upd_audit_findings]. rewrite (final_summary_last pre post m Hm Hpost).
  split; [reflexivity|].
  destruct (strip_spec (replace SENTINEL [] (content m)))
    as (l & r & E & Hl & Hr & Ht).
  split; [exact Ht|]. exists l, r. auto.
Qed.

Lemma C1_witness :
  exists u w',
    autogen_auditor_node sample_state
      (world_of [] [Some (sample_opening ++ sample_closing_turn :: sample_tail)]
         FileMissing) = (Ok u, w') /\
    upd_audit_findings u =
      Some [ {| stage := stage2_label;
                details := py "Clause 5: COMPLIANT." |} ].
Proof.
  destruct (C1_last_sentinel_message_is_extracted sample_state
              (world_of [] [Some (sample_opening ++ sample_closing_turn
                                    :: sample_tail)] FileMissing)
              sample_opening sample_tail sample_closing_turn
              eq_refl eq_refl eq_refl)
    as (u & w' & Hrun & Hf & _).
  exists u, w'. split; [exact Hrun|]. rewrite Hf. vm_compute. reflexivity.
Defined.

(** C2. When no message of the transcript carries "AUDIT_COMPLETE", the
    coordinator does not fail: the summary is the literal "No summary
    found.", which becomes the details of the one findings entry, and
    nothing is written about it. *)
Theorem C2_missing_sentinel_falls_back :
  forall (st : ComplianceState) (w : World) (history : list chat_message)
         (rest : list (option (list chat_message))),
    chats w = Some history :: rest ->
    forallb (fun x => negb (contains SENTINEL (content x))) history = true ->
    exists u w',
      autogen_auditor_node st w = (Ok u, w') /\
      upd_audit_findings u =
        Some [ {| stage := stage2_label; details := py "No summary found." |} ] /\
      upd_messages u = Some [HumanMessage (py "No summary found.")] /\
      audit_findings (merge st u) =
        [ {| stage := stage2_label; details := py "No summary found." |} ] /\
      filter (fun ev => negb (is_external ev)) (trace w') =
        filter (fun ev => negb (is_external ev)) (trace w)
        ++ [Wrote (Line (nl ++ py "--- [Stage 2] AutoGen: Iterative Audit & QA Loop ---"))].
Proof.
  intros st w history rest Hw Hh.
  eexists. eexists. split; [apply (autogen_auditor_node_run st w Hw)|].
  cbn [upd_audit_findings upd_messages merge audit_findings overwrite trace].
  rewrite (final_summary_fallback history Hh).
  repeat split.
  rewrite !filter_app. cbn [filter is_external negb]. rewrite app_nil_r.
  reflexivity.
Qed.

Lemma C2_witness :
  exists u w',
    autogen_auditor_node sample_state
      (world_of [] [Some sample_silent_transcript] FileMissing) = (Ok u, w') /\
    upd_audit_findings u =
      Some [ {| stage := stage2_label; details := py "No summary found." |} ].
Proof.
  destruct (C2_missing_sentinel_falls_back sample_state
              (world_of [] [Some sample_silent_transcript] FileMissing)
              eq_refl eq_refl)
    as (u & w' & Hrun & Hf & _).
  exists u, w'. split; [exact Hrun | exact Hf].
Defined.

(** The request the node sends carries the sentinel itself: a scheduler that
    lists the opening message in the history always offers the reverse scan
    a match. *)
Remark audit_prompt_carries_sentinel (standards_to_audit loaded_docs_text : str) :
  occurs SENTINEL (audit_prompt_of standards_to_audit loaded_docs_text).
Proof.
  unfold occurs, audit_prompt_of, SENTINEL.
  exists (nl
          ++ indent4 ++ py "Please conduct a compliance audit for only the following standards: "
          ++ standards_to_audit ++ py "." ++ nl
          ++ indent4 ++ nl
          ++ indent4 ++ py "Here is the documentation to review:" ++ nl
          ++ indent4 ++ loaded_docs_text ++ nl
          ++ indent4 ++ nl
          ++ indent4 ++ py "Auditors, be concise. Review your respective areas and collaborate if software changes affect risk." ++ nl
          ++ indent4 ++ py "Summarize findings as " ++ dquote ++ py "COMPLIANT" ++ dquote
          ++ py " or " ++ dquote ++ py "NON-COMPLIANT" ++ dquote
          ++ py " for key clauses." ++ nl
          ++ indent4 ++ py "End with " ++ dquote).
  exists (dquote ++ py "." ++ nl ++ indent4).
  rewrite <- !app_assoc. reflexivity.
Qed.

(* ===================================================================== *)
(** * Stage 2: the round budget *)
(* ===================================================================== *)

Section RoundBudget.

Variable stop : chat_message -> bool.
Variable participants : list agent.

(** A conversation that ends normally took at most [budget] turns, its
    texts are the first replies of the service in their order, and it ended
    because the budget was used up or a turn satisfied the predicate. *)
Lemma group_chat_turns_ok (budget : nat) :
  forall (turn_no : nat) (replies : list (option str))
         (t : list chat_message),
    group_chat_turns stop participants budget turn_no replies = Ok t ->
    List.length t <= budget /\
    map (fun m => Some (content m)) t = firstn (List.length t) replies /\
    (List.length t = budget \/ existsb stop t = true).
Proof.
  induction budget as [|b IH]; intros k replies t H.
  - cbn in H. inversion H; subst. cbn. auto.
  - destruct replies as [|[text|] later]; cbn [group_chat_turns] in H;
      try discriminate.
    match type of H with
    | (if stop ?m then _ else _) = _ => set (msg := m) in *
    end.
    destruct (stop msg) eqn:Hs.
    + inversion H; subst. cbn [List.length map firstn existsb content msg].
      rewrite Hs. repeat split; [lia | right; reflexivity].
    + destruct (group_chat_turns stop participants b (S k) later) as [t'|e]
        eqn:Hrec; [|discriminate].
      inversion H; subst. destruct (IH _ _ _ Hrec) as (Hlen & Hpre & Hend).
      cbn [List.length map firstn existsb content msg]. rewrite Hs, Hpre.
      repeat split; [lia|]. destruct Hend as [->|Hend]; [left | right]; auto.
Qed.

(** A conversation fails only when, within the budget, a reply of the
    service fails or is missing. *)
Lemma group_chat_turns_raised (budget : nat) :
  forall (turn_no : nat) (replies : list (option str)) (e : exn),
    group_chat_turns stop participants budget turn_no replies = Raised e ->
    e = ServiceError /\
    exists i, i < budget /\
              (nth_error replies i = None \/ nth_error replies i = Some None).
Proof.
  induction budget as [|b IH]; intros k replies e H.
  - cbn in H. discriminate.
  - destruct replies as [|[text|] later]; cbn [group_chat_turns] in H.
    + inversion H. split; [reflexivity|]. exists 0. split; [lia | left; reflexivity].
    + match type of H with
      | (if stop ?m then _ else _) = _ => destruct (stop m)
      end; [discriminate|].
      destruct (group_chat_turns stop participants b (S k) later) as [t'|e']
        eqn:Hrec; [discriminate|].
      inversion H; subst. destruct (IH _ _ _ Hrec) as (He & i & Hi & Hn).
      split; [exact He|]. exists (S i). split; [lia | exact Hn].
    + inversion H. split; [reflexivity|]. exists 0. split; [lia | right; reflexivity].
Qed.

End RoundBudget.

(** C5. The group chat is configured with a round budget of 4 that does not
    depend on the state.  Whatever the service replies, the conversation
    ends: normally, after at most 4 turns, either because a turn carried the
    sentinel or because the budget was used up, and then the coordinator
    takes the transcript as it stands and produces its finding; or with a
    service failure within the first 4 replies. *)
Theorem C5_round_budget_is_a_hard_cap :
  forall (replies : list (option str)) (st : ComplianceState)
         (cs : list (option str)) (rest : list (option (list chat_message)))
         (fs : str -> file_status) (tr : list event),
    max_round groupchat = 4 /\
    match run_group_chat groupchat is_termination_msg replies with
    | Ok t =>
        List.length t <= 4 /\
        map (fun m => Some (content m)) t = firstn (List.length t) replies /\
        (List.length t = 4 \/ existsb is_termination_msg t = true) /\
        exists w',
          autogen_auditor_node st
            {| completions := cs; chats := Some t :: rest; files := fs;
               trace := tr |}
          = (Ok {| upd_user_request := None;
                   upd_impacted_standards := None;
                   upd_loaded_documents := None;
                   upd_audit_findings := Some [finding_of (final_summary_of t)];
                   upd_final_report_content := None;
                   upd_messages := Some [HumanMessage (final_summary_of t)] |},
             w')
    | Raised e =>
        e = ServiceError /\
        exists i, i < 4 /\
                  (nth_error replies i = None \/ nth_error replies i = Some None)
    end.
Proof.
  intros replies st cs rest fs tr. split; [reflexivity|].
  unfold run_group_chat.
  change (max_round groupchat) with 4.
  destruct (group_chat_turns is_termination_msg (agents groupchat) 4 1 replies)
    as [t|e] eqn:H.
  - destruct (group_chat_turns_ok _ _ _ _ _ H) as (Hlen & Hpre & Hend).
    repeat split; try assumption.
    eexists. apply autogen_auditor_node_run. reflexivity.
  - exact (group_chat_turns_raised _ _ _ _ _ H).
Qed.

(** A conversation in which nobody utters the sentinel runs for the whole
    budget and no longer, however many replies the service could give. *)
Example budget_exhausted_ex :
  option_map (map content)
    (match run_group_chat groupchat is_termination_msg
             (map (fun t => Some (py t))
                  ["one"; "two"; "three"; "four"; "five"; "six"]%string) with
     | Ok t => Some t
     | Raised _ => None
     end)
  = Some [py "one"; py "two"; py "three"; py "four"].
Proof. vm_compute. reflexivity. Qed.

(* ===================================================================== *)
(** * Stage 1: the planner *)
(* ===================================================================== *)

Arguments py : simpl never.

Lemma orchestrator_planner_node_run (st : ComplianceState) (w : World)
  (reply : str) (rest : list (option str)) :
  completions w = Some reply :: rest ->
  orchestrator_planner_node st w =
  (Ok {| upd_user_request := None;
         upd_impacted_standards := Some (map strip (split comma reply));
         upd_loaded_documents := None;
         upd_audit_findings := None;
         upd_final_report_content := None;
         upd_messages := None |},
   {| completions := rest;
      chats := chats w;
      files := files w;
      trace :=
        ((trace w
          ++ [Wrote (Line (nl ++ py "--- [Stage 1] Orchestrator: Planning Compliance Scope ---"))])
         ++ [Completion llm_langchain planner_system (user_request st)])
        ++ [Wrote (LineOfList (py "Impacted Standards identified: ")
                     (map strip (split comma reply)))] |}).
Proof.
  intros H. destruct w as [cs hs fs tr]. cbn [completions] in H. subst cs.
  reflexivity.
Qed.

Lemma strip_is_trimmed (s : str) : trimmed (strip s).
Proof. destruct (strip_spec s) as (l & r & _ & _ & _ & H). exact H. Qed.

(** C6. For a non-empty request, the planner sends the request to the
    completion service once and writes as [impacted_standards] the pieces of
    the reply between its commas, in their order and each trimmed of white
    space; that sequence is never empty, and no reply is rejected. *)
Theorem C6_planner_splits_and_trims :
  forall (st : ComplianceState) (w : World) (reply : str)
         (rest : list (option str)),
    user_request st <> [] ->
    completions w = Some reply :: rest ->
    exists u w' pieces,
      orchestrator_planner_node st w = (Ok u, w') /\
      pieces = split comma reply /\
      join [comma] pieces = reply /\
      Forall (fun piece => ~ In comma piece) pieces /\
      upd_impacted_standards u = Some (map strip pieces) /\
      map strip pieces <> [] /\
      Forall trimmed (map strip pieces) /\
      filter is_completion (trace w') =
        filter is_completion (trace w)
        ++ [Completion llm_langchain planner_system (user_request st)].
Proof.
  intros st w reply rest _ Hw.
  eexists. eexists. exists (split comma reply).
  split; [apply (orchestrator_planner_node_run st w Hw)|].
  split; [reflexivity|].
  split; [apply join_split|].
  split; [apply split_pieces_free|].
  split; [reflexivity|].
  split.
  - pose proof (split_nonempty comma reply) as Hn.
    destruct (split comma reply); [congruence | discriminate].
  - split.
    + apply Forall_map. apply Forall_forall. intros x _. apply strip_is_trimmed.
    + cbn [trace]. rewrite !filter_app. cbn [filter is_completion].
      rewrite !app_nil_r. reflexivity.
Qed.

Lemma C6_witness :
  exists u w',
    orchestrator_planner_node sample_state
      (world_of [Some (py " IEC 62304 ,ISO 14971, ")] [] FileMissing)
    = (Ok u, w') /\
    upd_impacted_standards u = Some [py "IEC 62304"; py "ISO 14971"; []].
Proof.
  destruct (C6_planner_splits_and_trims sample_state
              (world_of [Some (py " IEC 62304 ,ISO 14971, ")] [] FileMissing)
              (reply := py " IEC 62304 ,ISO 14971, ") (rest := [])
              ltac:(discriminate) eq_refl)
    as (u & w' & pieces & Hrun & Hp & _ & _ & Hu & _).
  exists u, w'. split; [exact Hrun|]. rewrite Hu, Hp. vm_compute. reflexivity.
Defined.

(* ===================================================================== *)
(** * Stage 1: the document loader *)
(* ===================================================================== *)

Ltac run_loader :=
  cbv beta iota zeta delta
    [data_loading_node bind ret print write try_except read_text log files
     trace completions chats exn_eqb fetch_software_requirements_spec
     fetch_risk_management_file chain_invoke].

Ltac loader_cases st cs fs :=
  destruct (fs spec_file_path) eqn:?;
  destruct (any_contains (py "62304") (impacted_standards st)) eqn:?;
  destruct (any_contains (py "14971") (impacted_standards st)) eqn:?;
  destruct (any_contains (py "13485") (impacted_standards st)) eqn:?;
  destruct cs as [|[?r|] [|[?r|] ?cs]].

Ltac service_failed :=
  right; right; split; [reflexivity|];
  first [ exists 0; split; [lia|]; cbn [nth_error]; solve [auto]
        | exists 1; split; [lia|]; cbn [nth_error]; solve [auto] ].

(** Every run of the loader: a successful one returns the documents that the
    markers select and leaves the events of [loader_events]; a failing one is
    due to a file that cannot be read or decoded, or to a failed generation
    call. *)
Lemma data_loading_node_cases (st : ComplianceState) (w : World) :
  match data_loading_node st w with
  | (Ok u, w') =>
      exists ti srs rmf,
        technical_input_of (files w spec_file_path) (user_request st)
          = Some ti /\
        u = loaded (docs_for (impacted_standards st) srs rmf) /\
        trace w' =
          trace w
          ++ loader_events (impacted_standards st) (files w spec_file_path)
               (combined_input_of ti (user_request st))
  | (Raised e, _) =>
      (e = OSError /\ files w spec_file_path = FileUnreadable) \/
      (e = UnicodeDecodeError /\ files w spec_file_path = FileUndecodable) \/
      (e = ServiceError /\
       exists i, i < 2 /\
                 (nth_error (completions w) i = None
                  \/ nth_error (completions w) i = Some None))
  end.
Proof.
  destruct w as [cs hs fs tr]. unfold docs_for, loader_events.
  run_loader.
  loader_cases st cs fs;
    try solve [left; split; reflexivity];
    try solve [right; left; split; reflexivity];
    try solve [service_failed];
    solve [ eexists; exists r, r; split; [reflexivity|]; split;
            [ vm_compute; reflexivity
            | rewrite <- ?app_assoc; reflexivity ]
          | eexists; exists r, r0; split; [reflexivity|]; split;
            [ vm_compute; reflexivity
            | rewrite <- ?app_assoc; reflexivity ]
          | eexists; exists [], []; split; [reflexivity|]; split;
            [ vm_compute; reflexivity
            | rewrite <- ?app_assoc; reflexivity ] ].
Qed.

Section LoadedDocuments.

Variable standards : list str.

Lemma keys_docs_for (srs rmf : str) :
  keys (docs_for standards srs rmf) = selected_keys standards.
Proof.
  unfold docs_for, selected_keys, keys.
  cbn [document_markers filter snd].
  destruct (any_contains (py "62304") standards),
           (any_contains (py "14971") standards),
           (any_contains (py "13485") standards); reflexivity.
Qed.

Lemma qms_docs_for (srs rmf : str) :
  dict_get (docs_for standards srs rmf) (py "QMS") =
  if any_contains (py "13485") standards then Some qms_placeholder else None.
Proof.
  unfold docs_for.
  destruct (any_contains (py "62304") standards),
           (any_contains (py "14971") standards),
           (any_contains (py "13485") standards); reflexivity.
Qed.

Lemma any_contains_occurs (marker : str) :
  any_contains marker standards = true <->
  exists s, In s standards /\ occurs marker s.
Proof.
  unfold any_contains. rewrite existsb_exists.
  split; intros (s & Hs & H); exists s; split; auto; apply contains_occurs; exact H.
Qed.

(** A key is selected exactly when its marker occurs in a listed standard. *)
Lemma selected_keys_spec (k : str) :
  In k (selected_keys standards) <->
  exists marker s,
    In (k, marker) document_markers /\ In s standards /\ occurs marker s.
Proof.
  unfold selected_keys. rewrite in_map_iff. split.
  - intros ([k' marker] & E & Hin). cbn [fst] in E. subst k'.
    apply filter_In in Hin. destruct Hin as [Hm Hany]. cbn [snd] in Hany.
    apply any_contains_occurs in Hany. destruct Hany as (s & Hs & Ho).
    exists marker, s. auto.
  - intros (marker & s & Hm & Hs & Ho). exists (k, marker). split; [reflexivity|].
    apply filter_In. split; [exact Hm|]. cbn [snd].
    apply any_contains_occurs. exists s. auto.
Qed.

Lemma completions_of_loader_events (status : file_status) (ci : str) :
  List.length (filter is_completion (loader_events standards status ci)) =
  List.length
    (filter (fun k => negb (str_eqb k (py "QMS"))) (selected_keys standards)).
Proof.
  unfold loader_events, selected_keys.
  cbn [document_markers filter snd].
  destruct (any_contains (py "62304") standards),
           (any_contains (py "14971") standards),
           (any_contains (py "13485") standards); reflexivity.
Qed.

End LoadedDocuments.

(** C3. Whatever the list of impacted standards, a run of the loader that
    returns yields a mapping whose keys are exactly those of SRS, RMF, QMS
    whose marker (62304, 14971, 13485) occurs in some element of the list, in
    that order; QMS, when present, holds the fixed placeholder, and the run
    makes one completion request per key other than QMS.  A run fails only
    on a file that cannot be read or decoded, or on a failed completion
    request. *)
Theorem C3_loaded_documents_follow_markers :
  forall (st : ComplianceState) (w : World),
    match data_loading_node st w with
    | (Ok u, w') =>
        exists docs,
          upd_loaded_documents u = Some docs /\
          keys docs = selected_keys (impacted_standards st) /\
          (forall k,
              In k (keys docs) <->
              exists marker s,
                In (k, marker) document_markers /\
                In s (impacted_standards st) /\ occurs marker s) /\
          dict_get docs (py "QMS") =
            (if any_contains (py "13485") (impacted_standards st)
             then Some (py "QMS documentation placeholder") else None) /\
          List.length (filter is_completion (trace w')) =
            List.length (filter is_completion (trace w))
            + List.length (filter (fun k => negb (str_eqb k (py "QMS")))
                             (keys docs))
    | (Raised e, _) =>
        (e = OSError /\ files w spec_file_path = FileUnreadable) \/
        (e = UnicodeDecodeError /\ files w spec_file_path = FileUndecodable) \/
        (e = ServiceError /\
         exists i, i < 2 /\
                   (nth_error (completions w) i = None
                    \/ nth_error (completions w) i = Some None))
    end.
Proof.
  intros st w. pose proof (data_loading_node_cases st w) as H.
  destruct (data_loading_node st w) as [[u|e] w']; [|exact H].
  destruct H as (ti & srs & rmf & _ & -> & Htr).
  exists (docs_for (impacted_standards st) srs rmf).
  split; [reflexivity|].
  split; [apply keys_docs_for|].
  split; [intros k; rewrite keys_docs_for; apply selected_keys_spec|].
  split; [apply qms_docs_for|].
  rewrite Htr, filter_app, length_app, keys_docs_for.
  f_equal. apply completions_of_loader_events.
Qed.

(** No marker, no document. *)
Corollary loader_without_markers (st : ComplianceState) (w : World)
  (u : StateUpdate) (w' : World) :
  selected_keys (impacted_standards st) = [] ->
  data_loading_node st w = (Ok u, w') ->
  upd_loaded_documents u = Some [] /\ completions w' = completions w.
Proof.
  intros Hk Hrun. pose proof (data_loading_node_cases st w) as H.
  rewrite Hrun in H. destruct H as (ti & srs & rmf & _ & -> & _).
  pose proof (keys_docs_for (impacted_standards st) srs rmf) as K.
  rewrite Hk in K. split.
  - cbn [loaded upd_loaded_documents].
    destruct (docs_for (impacted_standards st) srs rmf); [reflexivity | discriminate].
  - revert Hk Hrun. destruct w as [cs hs fs tr].
    unfold selected_keys. cbn [document_markers filter snd]. run_loader.
    loader_cases st cs fs; intros Hk Hrun; try discriminate;
      inversion Hrun; reflexivity.
Qed.

(** All three markers, all three documents. *)
Corollary loader_with_all_markers (st : ComplianceState) (w : World)
  (u : StateUpdate) (w' : World) :
  any_contains (py "62304") (impacted_standards st) = true ->
  any_contains (py "14971") (impacted_standards st) = true ->
  any_contains (py "13485") (impacted_standards st) = true ->
  data_loading_node st w = (Ok u, w') ->
  exists docs, upd_loaded_documents u = Some docs /\
               keys docs = [py "SRS"; py "RMF"; py "QMS"].
Proof.
  intros H1 H2 H3 Hrun. pose proof (data_loading_node_cases st w) as H.
  rewrite Hrun in H. destruct H as (ti & srs & rmf & _ & -> & _).
  eexists. split; [reflexivity|]. rewrite keys_docs_for.
  unfold selected_keys. cbn [document_markers filter snd].
  rewrite H1, H2, H3. reflexivity.
Qed.

Ltac completion_inputs H :=
  cbn [app In] in H;
  repeat (destruct H as [H|H]; [inversion H; try reflexivity|]);
  try contradiction.

(** C4, as amended.  When the specification file is missing the loader goes
    on: it prints the warning, takes the request as the technical input, and
    gives every generation call the text made of the two headings, each
    followed by the request.  Such a run can only fail through the completion
    service. *)
Theorem C4_missing_file_falls_back_to_request :
  forall (st : ComplianceState) (w : World),
    files w spec_file_path = FileMissing ->
    exists evs,
      trace (snd (data_loading_node st w)) = trace w ++ evs /\
      In missing_file_warning evs /\
      (forall model system human,
          In (Completion model system human) evs ->
          human = py "Technical Specification:" ++ nl ++ user_request st
                  ++ nl ++ nl ++ py "User Request:" ++ nl ++ user_request st) /\
      match fst (data_loading_node st w) with
      | Ok u => exists docs, upd_loaded_documents u = Some docs
      | Raised e =>
          e = ServiceError /\
          exists i, i < 2 /\
                    (nth_error (completions w) i = None
                     \/ nth_error (completions w) i = Some None)
      end.
Proof.
  intros st [cs hs fs tr] Hf. cbn [files] in Hf.
  unfold missing_file_warning.
  change (py "Technical Specification:" ++ nl ++ user_request st
          ++ nl ++ nl ++ py "User Request:" ++ nl ++ user_request st)
    with (combined_input_of (user_request st) (user_request st)).
  run_loader. rewrite Hf. cbv beta iota.
  destruct (any_contains (py "62304") (impacted_standards st));
  destruct (any_contains (py "14971") (impacted_standards st));
  destruct (any_contains (py "13485") (impacted_standards st));
  destruct cs as [|[r|] [|[r0|] cs]];
    cbn [fst snd trace]; rewrite <- ?app_assoc;
    (eexists; split; [reflexivity|]; split;
     [ cbn [app In]; right; right; left; reflexivity
     | split;
       [ intros model system human Hin; completion_inputs Hin
       | first [ eexists; reflexivity
               | split; [reflexivity|];
                 first [ exists 0; split; [lia|]; cbn [nth_error]; solve [auto]
                       | exists 1; split; [lia|]; cbn [nth_error]; solve [auto] ] ] ] ]).
Qed.

Lemma C4_witness :
  exists evs,
    trace (snd (data_loading_node sample_state
                  (world_of [Some (py "SRS text")] [] FileMissing))) = evs /\
    In missing_file_warning evs /\
    In (Completion llm_langchain srs_system
          (py "Technical Specification:" ++ nl ++ py "Add Bluetooth module"
           ++ nl ++ nl ++ py "User Request:" ++ nl ++ py "Add Bluetooth module"))
       evs.
Proof.
  destruct (C4_missing_file_falls_back_to_request sample_state
              (world_of [Some (py "SRS text")] [] FileMissing) eq_refl)
    as (evs & Htr & Hwarn & _).
  exists evs. split; [exact Htr|]. split; [exact Hwarn|].
  assert (E : evs = trace (snd (data_loading_node sample_state
                  (world_of [Some (py "SRS text")] [] FileMissing))))
    by (symmetry; exact Htr).
  rewrite E. cbn [app In]. vm_compute. right. right. right. right. left.
  reflexivity.
Defined.

(** C4, as stated, fails: with the file missing, the generation call for the
    request "Add Bluetooth module" receives the two headings around two
    copies of the request, not the request itself. *)
Lemma C4_counterexample :
  ~ generation_input_is_raw_request sample_state
      (world_of [Some (py "SRS text")] [] FileMissing).
Proof.
  intros H.
  specialize (H eq_refl _ llm_langchain srs_system
                (combined_input_of (user_request sample_state)
                   (user_request sample_state)) eq_refl).
  assert (Hin : In (Completion llm_langchain srs_system
                      (combined_input_of (user_request sample_state)
                         (user_request sample_state)))
                  (trace (snd (data_loading_node sample_state
                     (world_of [Some (py "SRS text")] [] FileMissing))))).
  { cbv beta iota zeta delta
      [data_loading_node bind ret print write try_except read_text log files
       trace completions chats exn_eqb fetch_software_requirements_spec
       fetch_risk_management_file chain_invoke world_of snd sample_state
       impacted_standards user_request].
    vm_compute. right. right. right. right. left. reflexivity. }
  apply H in Hin. vm_compute in Hin. discriminate Hin.
Qed.

(** A list that names all three standards, with the file missing. *)
Example loader_sample_ex :
  let st := {| user_request := py "Add Bluetooth module";
               impacted_standards :=
                 [py "IEC 62304"; py "ISO 14971:2019"; py "ISO 13485"];
               loaded_documents := [];
               audit_findings := [];
               final_report_content := [];
               messages := [] |} in
  fst (data_loading_node st
         (world_of [Some (py "SRS text"); Some (py "RMF text")] [] FileMissing))
  = Ok (loaded [ (py "SRS", py "SRS text"); (py "RMF", py "RMF text");
                 (py "QMS", py "QMS documentation placeholder") ]).
Proof. vm_compute. reflexivity. Qed.

(** A list that names none of them. *)
Example loader_no_marker_ex :
  let st := {| user_request := py "Add Bluetooth module";
               impacted_standards := [py "IEC 60601"; []];
               loaded_documents := [];
               audit_findings := [];
               final_report_content := [];
               messages := [] |} in
  fst (data_loading_node st (world_of [] [] FileMissing)) = Ok (loaded []).
Proof. vm_compute. reflexivity. Qed.

(* ===================================================================== *)
(** * Stage 3: the report compiler *)
(* ===================================================================== *)

Lemma report_compiler_node_run (st : ComplianceState) (w : World) :
  report_compiler_node st w =
  (Ok (compiled (report_template_of (user_request st) (impacted_standards st)
                   (audit_findings st))),
   {| completions := completions w; chats := chats w; files := files w;
      trace := trace w ++ compiler_events |}).
Proof.
  destruct w as [cs hs fs tr]. unfold report_compiler_node, compiler_events.
  cbv beta iota zeta delta [bind ret print write log trace completions chats files].
  rewrite <- app_assoc. reflexivity.
Qed.

Lemma report_has_fixed_date (request : str) (standards : list str)
  (findings : list finding) :
  occurs (py "**Date:** 2026-01-27")
    (report_template_of request standards findings).
Proof.
  unfold occurs, report_template_of.
  exists (nl ++ py "# Medical Device Compliance Audit Report" ++ nl ++ nl).
  eexists. rewrite <- !app_assoc. reflexivity.
Qed.

(** C8. The report compiler is a function of [user_request],
    [impacted_standards] and [audit_findings] alone: on two states that agree
    on these, in any two worlds, it returns the same report, which is the
    fixed template filled with the three fields; it consumes no reply of the
    completion service or of the scheduler and leaves no event other than
    its two printed lines. *)
Theorem C8_report_compiler_is_pure :
  forall (st st' : ComplianceState) (w w' : World),
    user_request st' = user_request st ->
    impacted_standards st' = impacted_standards st ->
    audit_findings st' = audit_findings st ->
    fst (report_compiler_node st' w') = fst (report_compiler_node st w) /\
    fst (report_compiler_node st w) =
      Ok (compiled (report_template_of (user_request st)
                      (impacted_standards st) (audit_findings st))) /\
    completions (snd (report_compiler_node st w)) = completions w /\
    chats (snd (report_compiler_node st w)) = chats w /\
    trace (snd (report_compiler_node st w)) = trace w ++ compiler_events /\
    filter is_external compiler_events = [] /\
    fst (report_compiler_node st (snd (report_compiler_node st w))) =
      fst (report_compiler_node st w).
Proof.
  intros st st' w w' Hr Hs Hf.
  rewrite !report_compiler_node_run. cbn [fst snd completions chats trace].
  rewrite Hr, Hs, Hf. repeat split.
Qed.

Lemma C8_witness :
  fst (report_compiler_node sample_state
         (world_of [Some (py "unused")] [] FileMissing)) =
  fst (report_compiler_node sample_state (world_of [] [] FileUnreadable)).
Proof.
  exact (proj1 (C8_report_compiler_is_pure sample_state sample_state
                  (world_of [] [] FileUnreadable)
                  (world_of [Some (py "unused")] [] FileMissing)
                  eq_refl eq_refl eq_refl)).
Defined.

(** The report for the sample of the specification shows the request, the
    scope and the finding, in that order. *)
Example report_sample_ex :
  exists a b c d,
    report_template_of (py "Add Bluetooth module") [py "IEC 62304"]
      [ {| stage := []; details := py "COMPLIANT" |} ]
    = a ++ py "Add Bluetooth module" ++ b ++ py "IEC 62304" ++ c
        ++ py "COMPLIANT" ++ d.
Proof.
  exists (nl ++ py "# Medical Device Compliance Audit Report" ++ nl ++ nl
          ++ py "**Date:** 2026-01-27" ++ nl
          ++ py "**Trigger:** User Request - " ++ dquote).
  exists (dquote ++ nl ++ py "**Scope:** ").
  exists (nl ++ nl ++ py "## Executive Summary" ++ nl
          ++ py "An audit was conducted on the updated technical documentation. Below are the findings from the automated specialist agents."
          ++ nl ++ nl ++ py "## Audit Findings Summary" ++ nl ++ nl ++ py "- ").
  eexists. vm_compute. reflexivity.
Qed.

(* ===================================================================== *)
(** * The single-writer discipline of the blackboard *)
(* ===================================================================== *)

Section SingleWriter.

Lemma planner_writes (st : ComplianceState) (w : World) (u : StateUpdate)
  (w' : World) :
  orchestrator_planner_node st w = (Ok u, w') ->
  written u = [f_impacted_standards].
Proof.
  destruct w as [cs hs fs tr].
  cbv beta iota zeta delta
    [orchestrator_planner_node bind ret print write log chain_invoke
     completions chats files trace].
  destruct cs as [|[reply|] cs]; intros H; inversion H; reflexivity.
Qed.

Lemma loader_writes (st : ComplianceState) (w : World) (u : StateUpdate)
  (w' : World) :
  data_loading_node st w = (Ok u, w') ->
  written u = [f_loaded_documents].
Proof.
  intros H. pose proof (data_loading_node_cases st w) as C.
  rewrite H in C. destruct C as (ti & srs & rmf & _ & -> & _). reflexivity.
Qed.

Lemma auditor_writes (st : ComplianceState) (w : World) (u : StateUpdate)
  (w' : World) :
  autogen_auditor_node st w = (Ok u, w') ->
  written u = [f_audit_findings; f_messages].
Proof.
  destruct w as [cs hs fs tr].
  cbv beta iota zeta delta
    [autogen_auditor_node bind ret print write log initiate_chat
     completions chats files trace].
  destruct hs as [|[history|] hs]; intros H; inversion H; reflexivity.
Qed.

Lemma compiler_writes (st : ComplianceState) (w : World) (u : StateUpdate)
  (w' : World) :
  report_compiler_node st w = (Ok u, w') ->
  written u = [f_final_report_content].
Proof.
  rewrite report_compiler_node_run. intros H; inversion H; reflexivity.
Qed.

Lemma node_writes (n : node) (st : ComplianceState) (w : World)
  (u : StateUpdate) (w' : World) :
  node_fn n st w = (Ok u, w') -> written u = write_set n.
Proof.
  destruct n; cbn [node_fn write_set].
  - apply planner_writes.
  - apply loader_writes.
  - apply auditor_writes.
  - apply compiler_writes.
Qed.

(** Merging an update leaves every field it does not hold as it was. *)
Lemma merge_frame (st : ComplianceState) (u : StateUpdate) :
  agree_outside (written u) st (merge st u).
Proof.
  destruct u as [a b c d e f].
  unfold agree_outside, written, merge.
  cbn [upd_user_request upd_impacted_standards upd_loaded_documents
       upd_audit_findings upd_final_report_content upd_messages
       user_request impacted_standards loaded_documents audit_findings
       final_report_content messages].
  repeat split.
  - destruct a; [left; cbn; auto | right; reflexivity].
  - destruct b; [left; apply in_or_app; right; cbn; auto | right; reflexivity].
  - destruct c; [left; do 2 (apply in_or_app; right); cbn; auto
                | right; reflexivity].
  - destruct d; [left; do 3 (apply in_or_app; right); cbn; auto
                | right; reflexivity].
  - destruct e; [left; do 4 (apply in_or_app; right); cbn; auto
                | right; reflexivity].
  - destruct f; [left; do 5 (apply in_or_app; right); cbn; auto
                | right; reflexivity].
Qed.

Lemma write_sets_disjoint (n n' : node) (f : field) :
  In f (write_set n) -> In f (write_set n') -> n' = n.
Proof.
  destruct n, n'; cbn; intros H H'; try reflexivity;
    repeat (destruct H as [H|H]; try contradiction);
    repeat (destruct H' as [H'|H']; try contradiction);
    subst; discriminate.
Qed.

Lemma every_field_has_a_writer (f : field) :
  f <> f_user_request -> exists n, In f (write_set n).
Proof.
  destruct f; intros H; try congruence.
  - exists planner; cbn; auto.
  - exists data_loader; cbn; auto.
  - exists autogen_auditor; cbn; auto.
  - exists compiler; cbn; auto.
  - exists autogen_auditor; cbn; auto.
Qed.

Lemma request_has_no_writer (n : node) : ~ In f_user_request (write_set n).
Proof. destruct n; cbn; intuition discriminate. Qed.

Lemma node_keeps_request (n : node) (st : ComplianceState) (w : World)
  (u : StateUpdate) (w' : World) :
  node_fn n st w = (Ok u, w') -> user_request (merge st u) = user_request st.
Proof.
  intros H. pose proof (merge_frame st u) as F.
  rewrite (node_writes n st w H) in F. destruct F as [[F|F] _].
  - exfalso. exact (request_has_no_writer n F).
  - symmetry. exact F.
Qed.

(** The request the pipeline ends with is the one it was started with. *)
Lemma run_from_keeps_request (fuel : nat) :
  forall (n : node) (st : ComplianceState) (w : World)
         (final : ComplianceState) (w' : World),
    run_from fuel n st w = (Ok final, w') ->
    user_request final = user_request st.
Proof.
  induction fuel as [|fuel IH]; intros n st w final w' H.
  - discriminate H.
  - cbn [run_from] in H. unfold bind at 1 in H.
    destruct (node_fn n st w) as [[u|e] w1] eqn:Hn; [|discriminate].
    pose proof (node_keeps_request n st w Hn) as K.
    destruct (successor n) as [[n'|]|].
    + rewrite (IH _ _ _ _ _ H). exact K.
    + inversion H; subst. exact K.
    + inversion H; subst. exact K.
Qed.

End SingleWriter.

(** C7. A stage that returns writes exactly the fields of its own write set
    and leaves all others as they were: the planner [impacted_standards],
    the loader [loaded_documents], the coordinator [audit_findings] and
    [messages], the compiler [final_report_content].  No write set holds
    [user_request], and every other field belongs to the write set of one
    stage and of no other. *)
Theorem C7_single_writer_discipline :
  forall (n : node) (st : ComplianceState) (w : World) (u : StateUpdate)
         (w' : World),
    node_fn n st w = (Ok u, w') ->
    written u = write_set n /\
    agree_outside (write_set n) st (merge st u) /\
    user_request (merge st u) = user_request st /\
    (forall n', ~ In f_user_request (write_set n')) /\
    (forall f, f <> f_user_request ->
               exists n0, In f (write_set n0) /\
                          forall n1, In f (write_set n1) -> n1 = n0) /\
    (forall f n', In f (written u) -> In f (write_set n') -> n' = n).
Proof.
  intros n st w u w' H.
  pose proof (node_writes n st w H) as Hw.
  split; [exact Hw|].
  split; [rewrite <- Hw; apply merge_frame|].
  split; [exact (node_keeps_request n st w H)|].
  split; [exact request_has_no_writer|].
  split.
  - intros f Hf. destruct (every_field_has_a_writer Hf) as [n0 Hn0].
    exists n0. split; [exact Hn0|]. intros n1 Hn1.
    exact (write_sets_disjoint n0 n1 f Hn0 Hn1).
  - intros f n' Hin Hin'. rewrite Hw in Hin.
    exact (write_sets_disjoint n n' f Hin Hin').
Qed.

Lemma C7_witness :
  written (loaded [(py "SRS", py "SRS text")]) = [f_loaded_documents] /\
  impacted_standards
    (merge sample_state (loaded [(py "SRS", py "SRS text")]))
  = [py "IEC 62304"].
Proof.
  destruct (C7_single_writer_discipline data_loader sample_state
              (world_of [Some (py "SRS text")] [] FileMissing)
              (u := loaded [(py "SRS", py "SRS text")])
              (w' := snd (data_loading_node sample_state
                            (world_of [Some (py "SRS text")] [] FileMissing)))
              ltac:(vm_compute; reflexivity))
    as (Hw & Hframe & _).
  split; [exact Hw|].
  destruct Hframe as (_ & [Hin|Heq] & _).
  - cbn in Hin. destruct Hin as [Hin|[]]. discriminate Hin.
  - symmetry. exact Heq.
Defined.

(* ===================================================================== *)
(** * The pipeline as a whole and the read loop *)
(* ===================================================================== *)

(** The four stages run once each, in the order of the edges. *)
Lemma app_invoke_stages (st : ComplianceState) :
  app_invoke st =
  (u1 <- orchestrator_planner_node st ;;
   u2 <- data_loading_node (merge st u1) ;;
   u3 <- autogen_auditor_node (merge (merge st u1) u2) ;;
   u4 <- report_compiler_node (merge (merge (merge st u1) u2) u3) ;;
   ret (merge (merge (merge (merge st u1) u2) u3) u4)).
Proof. reflexivity. Qed.

Section Commands.

Lemma space_is_no_letter (c : N) :
  is_space c = true -> (c <= 32 \/ 133 <= c)%N.
Proof.
  unfold is_space.
  rewrite !orb_true_iff, !andb_true_iff, !N.leb_le, !N.eqb_eq. lia.
Qed.

Lemma lower_cp_letter (c d : N) :
  (97 <= d <= 122)%N ->
  lower_cp c = d <-> (c = d \/ ((97 <= d <= 122)%N /\ (c + 32)%N = d)).
Proof.
  intros Hd. unfold lower_cp.
  destruct ((65 <=? c) && (c <=? 90)
            || (192 <=? c) && (c <=? 222) && negb (c =? 215))%N eqn:E.
  - rewrite orb_true_iff, !andb_true_iff, !N.leb_le in E. split.
    + intros H. right. split; [exact Hd | exact H].
    + intros [H|[_ H]]; [lia | exact H].
  - rewrite orb_false_iff, !andb_false_iff, !N.leb_gt in E. split.
    + intros H. left. exact H.
    + intros [H|[_ H]]; [exact H | lia].
Qed.

Lemma lower_command (cmd u : str) :
  lower_letters cmd -> (lower u = cmd <-> in_letter_case cmd u).
Proof.
  unfold lower_letters, lower, in_letter_case. intros Hcmd. revert u.
  induction Hcmd as [|d cmd Hd _ IH]; intros u.
  - split.
    + destruct u; [constructor | discriminate].
    + intros H; inversion H; reflexivity.
  - split.
    + destruct u as [|c u]; [discriminate|]. cbn [map]. intros H.
      inversion H as [[Hc Hu]]. constructor.
      * rewrite Hc. apply (lower_cp_letter c Hd). exact Hc.
      * rewrite Hu. apply IH. exact Hu.
    + intros H. inversion H as [|d' c cmd' u' Hc Hu]; subst. cbn [map].
      f_equal; [apply (lower_cp_letter c Hd); exact Hc | apply IH; exact Hu].
Qed.

Lemma quit_letters : lower_letters (py "quit").
Proof. unfold lower_letters. vm_compute. repeat constructor; discriminate. Qed.

Lemma exit_letters : lower_letters (py "exit").
Proof. unfold lower_letters. vm_compute. repeat constructor; discriminate. Qed.

(** The test of the loop recognises exactly the two commands, in any letter
    case. *)
Lemma command_recognised (u : str) :
  str_in (lower u) [py "quit"; py "exit"] = true <-> is_exit_command u.
Proof.
  unfold str_in, is_exit_command. cbn [existsb].
  rewrite orb_false_r, orb_true_iff, !str_eqb_eq.
  rewrite (lower_command u quit_letters), (lower_command u exit_letters).
  reflexivity.
Qed.

Lemma command_not_recognised (u : str) :
  str_in (lower u) [py "quit"; py "exit"] = false <-> ~ is_exit_command u.
Proof.
  rewrite <- command_recognised.
  destruct (str_in (lower u) [py "quit"; py "exit"]); split; intros H;
    try reflexivity; try discriminate; try (intros E; discriminate).
  exfalso; apply H; reflexivity.
Qed.

Lemma letter_case_no_space (cmd u : str) :
  lower_letters cmd -> in_letter_case cmd u ->
  Forall (fun c => is_space c = false) u.
Proof.
  unfold lower_letters, in_letter_case. intros Hcmd H.
  induction H as [|d c cmd u Hc _ IH]; [constructor|].
  inversion Hcmd; subst. constructor; [|apply IH; assumption].
  destruct (is_space c) eqn:E; [|reflexivity].
  apply space_is_no_letter in E. lia.
Qed.

Lemma no_space_trimmed (u : str) :
  Forall (fun c => is_space c = false) u -> trimmed u.
Proof.
  intros H. split; intros c t E; subst; rewrite Forall_forall in H;
    apply H; [left; reflexivity | apply in_or_app; right; left; reflexivity].
Qed.

Lemma command_trimmed (u : str) : is_exit_command u -> trimmed u.
Proof.
  intros [H|H]; apply no_space_trimmed.
  - exact (letter_case_no_space quit_letters H).
  - exact (letter_case_no_space exit_letters H).
Qed.

End Commands.

Section ReadLoop.

Variable w : World.

Lemma loop_body_exit (line : str) :
  is_exit_command (strip line) -> loop_body line w = (Ok Break, log exiting w).
Proof.
  intros H. apply command_recognised in H. unfold loop_body. rewrite H.
  reflexivity.
Qed.

Lemma loop_body_empty (line : str) :
  strip line = [] -> loop_body line w = (Ok Continue, w).
Proof. intros H. unfold loop_body. rewrite H. reflexivity. Qed.

Lemma loop_body_run (line : str) :
  strip line <> [] -> ~ is_exit_command (strip line) ->
  loop_body line w =
  match app_invoke (initial_state_of (strip line))
          (log (Wrote (Line (starting_line (strip line)))) w) with
  | (Ok final, w1) => (Ok Continue, report_printed final w1)
  | (Raised e, w1) => (Raised e, w1)
  end.
Proof.
  intros Hne Hcmd. apply command_not_recognised in Hcmd.
  unfold loop_body. rewrite Hcmd.
  destruct (strip line) as [|c t] eqn:E; [congruence|].
  unfold bind at 1. unfold print at 1, write at 1.
  unfold bind at 1, starting_line.
  destruct (app_invoke (initial_state_of (c :: t))
              (log (Wrote (Line (nl ++ py "Starting Compliance System with input: '"
                                 ++ (c :: t) ++ py "'" ++ nl))) w))
    as [[final|e] w1]; reflexivity.
Qed.

End ReadLoop.

Lemma read_loop_step (line : str) (rest : list str) (w : World) :
  read_loop (line :: rest) w =
  match loop_body line (log prompted w) with
  | (Ok Break, w1) => (Ok tt, w1)
  | (Ok Continue, w1) => read_loop rest w1
  | (Raised e, w1) => (Raised e, w1)
  end.
Proof.
  cbn [read_loop]. unfold bind at 1, write at 1. unfold bind at 1.
  fold prompted.
  destruct (loop_body line (log prompted w)) as [[[|]|e] w1]; reflexivity.
Qed.

(** C9, as amended.  With [user_input] the line read, stripped of the white
    space at both ends: a command "quit" or "exit" in any letter case ends
    the loop, and the program, normally and in the same way for both, without
    reading further; an empty [user_input] writes nothing and leads to the
    next prompt without a pipeline run; any other input starts the pipeline
    once, on [user_input], and when the run returns its report is printed
    between the two banners before the next prompt. *)
Theorem C9_read_loop_dispatch :
  forall (line : str) (rest : list str) (w : World),
    (is_exit_command (strip line) ->
     read_loop (line :: rest) w = (Ok tt, log exiting (log prompted w))) /\
    (strip line = [] ->
     loop_body line (log prompted w) = (Ok Continue, log prompted w) /\
     read_loop (line :: rest) w = read_loop rest (log prompted w)) /\
    (strip line <> [] -> ~ is_exit_command (strip line) ->
     read_loop (line :: rest) w =
     match app_invoke (initial_state_of (strip line))
             (log (Wrote (Line (starting_line (strip line))))
                (log prompted w)) with
     | (Ok final, w1) => read_loop rest (report_printed final w1)
     | (Raised e, w1) => (Raised e, w1)
     end).
Proof.
  intros line rest w. rewrite read_loop_step. repeat split.
  - intros H. rewrite (loop_body_exit _ _ H). reflexivity.
  - apply loop_body_empty. assumption.
  - rewrite (loop_body_empty _ _ H). reflexivity.
  - intros Hne Hcmd. rewrite (loop_body_run (log prompted w) line Hne Hcmd).
    destruct (app_invoke (initial_state_of (strip line))
                (log (Wrote (Line (starting_line (strip line))))
                   (log prompted w))) as [[final|e] w1]; reflexivity.
Qed.

Lemma C9_witness :
  read_loop [py "QuIt"; py "never read"] (world_of [] [] FileMissing)
  = (Ok tt, log exiting (log prompted (world_of [] [] FileMissing))).
Proof.
  refine (proj1 (C9_read_loop_dispatch (py "QuIt") [py "never read"]
                   (world_of [] [] FileMissing)) _).
  apply command_recognised. vm_compute. reflexivity.
Defined.

(** C9, as stated, fails on a blank line: it is neither empty nor a command,
    and yet no pipeline run starts (the world is left as it was). *)
Lemma C9_counterexample :
  ~ other_input_runs_pipeline (py "   ") sample_session_world.
Proof.
  intros H. destruct H as [request Hin].
  - discriminate.
  - intros Hcmd. apply command_recognised in Hcmd. vm_compute in Hcmd.
    discriminate Hcmd.
  - rewrite (loop_body_empty sample_session_world (py "   ") eq_refl) in Hin.
    exact Hin.
Qed.

(** C10. The line is stripped before any test.  Written as white space,
    then [u], then white space, a line is handled as [u] alone: when [u] is
    empty the line is let go in silence and the next prompt follows, and when
    [u] is "quit" or "exit" in some letter case the loop ends. *)
Theorem C10_input_is_stripped_first :
  forall (l u r : str) (rest : list str) (w : World),
    all_space l -> all_space r -> trimmed u ->
    loop_body (l ++ u ++ r) w = loop_body u w /\
    (u = [] ->
     loop_body (l ++ u ++ r) w = (Ok Continue, w) /\
     read_loop ((l ++ u ++ r) :: rest) w = read_loop rest (log prompted w)) /\
    (is_exit_command u ->
     loop_body (l ++ u ++ r) w = (Ok Break, log exiting w) /\
     read_loop ((l ++ u ++ r) :: rest) w
     = (Ok tt, log exiting (log prompted w))).
Proof.
  intros l u r rest w Hl Hr Hu.
  pose proof (strip_padded Hl Hr Hu) as Hs.
  pose proof (strip_trimmed Hu) as Ht.
  assert (Hsame : forall w0, loop_body (l ++ u ++ r) w0 = loop_body u w0).
  { intros w0. unfold loop_body. rewrite Hs. reflexivity. }
  split; [apply Hsame|]. split.
  - intros ->. rewrite read_loop_step, !Hsame.
    rewrite !(loop_body_empty _ [] eq_refl). split; reflexivity.
  - intros Hcmd. rewrite read_loop_step, !Hsame.
    assert (Hc : is_exit_command (strip u)) by (rewrite Ht; exact Hcmd).
    rewrite !(loop_body_exit _ _ Hc). split; reflexivity.
Qed.

Lemma C10_witness :
  loop_body (py "  QUIT  ") (world_of [] [] FileMissing)
  = (Ok Break, log exiting (world_of [] [] FileMissing)).
Proof.
  assert (Hsp : all_space (py "  ")) by (vm_compute; repeat constructor).
  assert (Hcmd : is_exit_command (py "QUIT"))
    by (apply command_recognised; vm_compute; reflexivity).
  exact (proj1 (proj2 (proj2
           (C10_input_is_stripped_first [] (world_of [] [] FileMissing)
              Hsp Hsp (command_trimmed Hcmd))) Hcmd)).
Defined.

(** One session: an empty line, a blank line, a request, then "Exit".  The
    pipeline runs once, on the stripped request; the line after "Exit" is
    never read. *)
Example session_ex :
  let run := main sample_session_input sample_session_world in
  fst run = Ok tt /\
  List.length (filter is_initiated_chat (trace (snd run))) = 1 /\
  List.length (filter is_completion (trace (snd run))) = 2 /\
  List.length (filter (fun ev => match ev with
                                 | Wrote (Prompt _) => true
                                 | _ => false
                                 end) (trace (snd run))) = 4 /\
  In (Completion llm_langchain planner_system (py "Add Bluetooth module"))
     (trace (snd run)) /\
  exists before report,
    trace (snd run) =
    before ++ [ Wrote (Line banner_open); Wrote (Line report);
                Wrote (Line banner_close); prompted; exiting ] /\
    occurs (py "- Clause 5: COMPLIANT.") report.
Proof.
  cbv zeta. split; [vm_compute; reflexivity|].
  split; [vm_compute; reflexivity|].
  split; [vm_compute; reflexivity|].
  split; [vm_compute; reflexivity|].
  split; [vm_compute; tauto|].
  set (tr := trace (snd (main sample_session_input sample_session_world))).
  exists (firstn (List.length tr - 5) tr).
  exists (match nth_error tr (List.length tr - 4) with
          | Some (Wrote (Line s)) => s
          | _ => []
          end).
  split; [vm_compute; reflexivity|].
  apply contains_occurs. vm_compute. reflexivity.
Qed.

(* ===================================================================== *)
(** * Every run of a stage *)
(* ===================================================================== *)

Section StageRuns.

Variable st : ComplianceState.

(** The planner returns when its request is answered and fails otherwise;
    it touches neither the scheduler nor the file system. *)
Lemma orchestrator_planner_node_cases (w : World) :
  match orchestrator_planner_node st w with
  | (Ok u, w') =>
      exists reply rest,
        completions w = Some reply :: rest /\
        u = planned (map strip (split comma reply)) /\
        completions w' = rest /\ chats w' = chats w /\ files w' = files w /\
        trace w' =
          trace w
          ++ [ planner_banner;
               Completion llm_langchain planner_system (user_request st);
               Wrote (LineOfList (py "Impacted Standards identified: ")
                        (map strip (split comma reply))) ]
  | (Raised e, w') =>
      e = ServiceError /\ next_fails (completions w) /\
      chats w' = chats w /\ files w' = files w /\
      trace w' =
        trace w
        ++ [ planner_banner;
             Completion llm_langchain planner_system (user_request st) ]
  end.
Proof.
  destruct w as [cs hs fs tr]. unfold planner_banner, next_fails.
  cbv beta iota zeta delta
    [orchestrator_planner_node bind ret print write log chain_invoke
     completions chats files trace].
  destruct cs as [|[reply|] cs]; cbn [nth_error];
    rewrite <- ?app_assoc.
  - repeat split; auto.
  - exists reply, cs. repeat split.
  - repeat split; auto.
Qed.

(** The coordinator returns when the scheduler hands back a history and
    fails otherwise; it makes no completion request of its own. *)
Lemma autogen_auditor_node_cases (w : World) :
  match autogen_auditor_node st w with
  | (Ok u, w') =>
      exists history rest,
        chats w = Some history :: rest /\
        u = audited (final_summary_of history) /\
        completions w' = completions w /\ chats w' = rest /\
        files w' = files w /\
        trace w' =
          trace w
          ++ [ auditor_banner;
               InitiatedChat groupchat llm_config_autogen
                 (audit_prompt_for st) ]
  | (Raised e, w') =>
      e = ServiceError /\ next_fails (chats w) /\
      completions w' = completions w /\ files w' = files w /\
      trace w' =
        trace w
        ++ [ auditor_banner;
             InitiatedChat groupchat llm_config_autogen (audit_prompt_for st) ]
  end.
Proof.
  destruct w as [cs hs fs tr].
  unfold auditor_banner, next_fails, audit_prompt_for.
  cbv beta iota zeta delta
    [autogen_auditor_node bind ret print write log initiate_chat
     completions chats files trace].
  destruct hs as [|[history|] hs]; cbn [nth_error];
    rewrite <- ?app_assoc.
  - repeat split; auto.
  - exists history, hs. repeat split.
  - repeat split; auto.
Qed.

(** The loader leaves the scheduler's outcomes and the file system alone. *)
Lemma data_loading_node_keeps (w : World) :
  chats (snd (data_loading_node st w)) = chats w /\
  files (snd (data_loading_node st w)) = files w.
Proof.
  destruct w as [cs hs fs tr]. run_loader.
  loader_cases st cs fs; split; reflexivity.
Qed.

End StageRuns.

(* ===================================================================== *)
(** * Every run of the pipeline *)
(* ===================================================================== *)

Section PipelineRuns.

Variable st : ComplianceState.

(** A run that returns went through the four stages: the planner's request
    was answered by [reply], the loader produced its documents for the
    standards read from it, the scheduler handed back [history], and the
    final state is the initial one with the four updates folded in. *)
Lemma app_invoke_ok (w : World) (final : ComplianceState) (w' : World) :
  app_invoke st w = (Ok final, w') ->
  exists reply srs rmf history,
    reply_at w 0 = Some reply /\
    nth_error (chats w) 0 = Some (Some history) /\
    let s1 := merge st (planned (map strip (split comma reply))) in
    let s2 := merge s1 (loaded (docs_for (impacted_standards s1) srs rmf)) in
    let s3 := merge s2 (audited (final_summary_of history)) in
    final =
      merge s3 (compiled (report_template_of (user_request s3)
                            (impacted_standards s3) (audit_findings s3))).
Proof.
  intros H. rewrite app_invoke_stages in H. unfold bind in H.
  pose proof (orchestrator_planner_node_cases st w) as P.
  destruct (orchestrator_planner_node st w) as [[u1|e1] w1]; [|discriminate].
  destruct P as (reply & rest & Hc & -> & _ & Hh1 & _).
  set (s1 := merge st (planned (map strip (split comma reply)))) in *.
  pose proof (data_loading_node_cases s1 w1) as L.
  pose proof (data_loading_node_keeps s1 w1) as [Hh2 _].
  destruct (data_loading_node s1 w1) as [[u2|e2] w2]; [|discriminate].
  destruct L as (ti & srs & rmf & _ & -> & _). cbn [snd] in Hh2.
  set (s2 := merge s1 (loaded (docs_for (impacted_standards s1) srs rmf))) in *.
  pose proof (autogen_auditor_node_cases s2 w2) as A.
  destruct (autogen_auditor_node s2 w2) as [[u3|e3] w3]; [|discriminate].
  destruct A as (history & hrest & Hch & -> & _).
  rewrite report_compiler_node_run in H. inversion H; subst final.
  exists reply, srs, rmf, history.
  split; [unfold reply_at; rewrite Hc; reflexivity|].
  split; [rewrite <- Hh1, <- Hh2, Hch; reflexivity|].
  reflexivity.
Qed.


End PipelineRuns.





(** X3. When the planner's request fails, the whole run fails with it: the
    request is the last thing the run does, so no file is opened, no
    document is generated, no chat is started and no report is compiled. *)
Theorem X3_planner_failure_is_fatal :
  forall (st : ComplianceState) (w : World),
    next_fails (completions w) ->
    exists w',
      app_invoke st w = (Raised ServiceError, w') /\
      chats w' = chats w /\
      trace w' =
        trace w
        ++ [ planner_banner;
             Completion llm_langchain planner_system (user_request st) ].
Proof.
  intros st w Hf. rewrite app_invoke_stages. unfold bind.
  pose proof (orchestrator_planner_node_cases st w) as P.
  destruct (orchestrator_planner_node st w) as [[u1|e1] w1].
  - destruct P as (reply & rest & Hc & _). exfalso.
    unfold next_fails in Hf. rewrite Hc in Hf. cbn in Hf.
    destruct Hf as [Hf|Hf]; discriminate Hf.
  - destruct P as (-> & _ & Hh & _ & Htr). exists w1. auto.
Qed.

Lemma X3_witness :
  exists w',
    app_invoke sample_request_state (world_of [None] [] FileMissing)
    = (Raised ServiceError, w') /\
    trace w' =
      [ planner_banner;
        Completion llm_langchain planner_system (py "Add Bluetooth module") ].
Proof.
  destruct (X3_planner_failure_is_fatal sample_request_state
              (world_of [None] [] FileMissing)
              (or_intror eq_refl))
    as (w' & Hrun & _ & Htr).
  exists w'. split; [exact Hrun | exact Htr].
Defined.

(* ===================================================================== *)
(** * More on the document loader *)
(* ===================================================================== *)

(** X4. Only a missing specification file is tolerated.  A file that
    cannot be opened or read stops the loader with that [OSError], and a file
    whose bytes are not UTF-8 stops it with the [UnicodeDecodeError] of
    [read]: nothing is printed after the banner, no generation call is made
    and no reply of the completion service is used up. *)
Theorem X4_unreadable_file_is_fatal :
  forall (st : ComplianceState) (w : World) (e : exn),
    read_failure (files w spec_file_path) = Some e ->
    data_loading_node st w =
    (Raised e,
     {| completions := completions w; chats := chats w; files := files w;
        trace := trace w ++ [loader_banner; OpenedFile spec_file_path] |}) /\
    e <> FileNotFoundError.
Proof.
  intros st [cs hs fs tr] e Hf. cbn [files] in Hf. unfold loader_banner.
  run_loader. unfold read_failure in Hf.
  destruct (fs spec_file_path); try discriminate Hf;
    inversion Hf; subst e; cbv beta iota; rewrite <- app_assoc;
    (split; [reflexivity | discriminate]).
Qed.

Lemma X4_witness :
  fst (data_loading_node sample_state
         (world_of [Some (py "SRS text")] [] FileUndecodable))
  = Raised UnicodeDecodeError /\
  fst (data_loading_node sample_state
         (world_of [Some (py "SRS text")] [] FileUnreadable))
  = Raised OSError.
Proof.
  split.
  - rewrite (proj1 (X4_unreadable_file_is_fatal sample_state
                      (world_of [Some (py "SRS text")] [] FileUndecodable)
                      eq_refl)).
    reflexivity.
  - rewrite (proj1 (X4_unreadable_file_is_fatal sample_state
                      (world_of [Some (py "SRS text")] [] FileUnreadable)
                      eq_refl)).
    reflexivity.
Defined.

Ltac other_event H :=
  cbn [app In] in H;
  repeat (destruct H as [H|H];
          [first [discriminate H | vm_compute in H; discriminate H]|]);
  try contradiction.

(** X5. When the specification file can be read, the loader says so instead
    of warning, and every generation call receives the two headings, the
    first followed by the text of the file and the second by the request. *)
Theorem X5_specification_file_is_combined :
  forall (st : ComplianceState) (w : World) (text : str),
    files w spec_file_path = FileText text ->
    exists evs,
      trace (snd (data_loading_node st w)) = trace w ++ evs /\
      In (Wrote (Line (py "Loaded technical specification from "
                       ++ spec_file_path))) evs /\
      ~ In missing_file_warning evs /\
      forall model system human,
        In (Completion model system human) evs ->
        human = py "Technical Specification:" ++ nl ++ text ++ nl ++ nl
                ++ py "User Request:" ++ nl ++ user_request st.
Proof.
  intros st [cs hs fs tr] text Hf. cbn [files] in Hf.
  unfold missing_file_warning.
  change (py "Technical Specification:" ++ nl ++ text ++ nl ++ nl
          ++ py "User Request:" ++ nl ++ user_request st)
    with (combined_input_of text (user_request st)).
  run_loader. rewrite Hf. cbv beta iota.
  destruct (any_contains (py "62304") (impacted_standards st));
  destruct (any_contains (py "14971") (impacted_standards st));
  destruct (any_contains (py "13485") (impacted_standards st));
  destruct cs as [|[r|] [|[r0|] cs]];
    cbn [fst snd trace]; rewrite <- ?app_assoc;
    (eexists; split; [reflexivity|]; split;
     [ cbn [app In]; right; right; left; reflexivity
     | split;
       [ intros Hin; other_event Hin
       | intros model system human Hin; completion_inputs Hin ] ]).
Qed.

Lemma X5_witness :
  exists evs,
    trace (snd (data_loading_node sample_state
                  (world_of [Some (py "SRS text")] []
                     (FileText (py "Pairing uses BLE 5.")))))
    = evs /\
    In (Completion llm_langchain srs_system
          (py "Technical Specification:" ++ nl ++ py "Pairing uses BLE 5."
           ++ nl ++ nl ++ py "User Request:" ++ nl
           ++ py "Add Bluetooth module")) evs.
Proof.
  destruct (X5_specification_file_is_combined sample_state
              (world_of [Some (py "SRS text")] []
                 (FileText (py "Pairing uses BLE 5.")))
              eq_refl)
    as (evs & Htr & _).
  exists evs. split; [exact Htr|].
  assert (E : evs = trace (snd (data_loading_node sample_state
                  (world_of [Some (py "SRS text")] []
                     (FileText (py "Pairing uses BLE 5."))))))
    by (symmetry; exact Htr).
  rewrite E. vm_compute. right. right. right. right. left. reflexivity.
Defined.

(** X6. The generated documents are the replies of the completion service in
    the order of the calls: SRS is the first reply; RMF is the second when SRS
    was generated too and the first otherwise.  A run uses up exactly the
    replies of the calls it made, and no key is stored twice. *)
Theorem X6_documents_are_the_replies_in_order :
  forall (st : ComplianceState) (w : World) (u : StateUpdate) (w' : World),
    data_loading_node st w = (Ok u, w') ->
    let srs := any_contains (py "62304") (impacted_standards st) in
    let rmf := any_contains (py "14971") (impacted_standards st) in
    exists docs,
      upd_loaded_documents u = Some docs /\
      dict_get docs (py "SRS") = (if srs then reply_at w 0 else None) /\
      dict_get docs (py "RMF") =
        (if rmf then reply_at w (if srs then 1 else 0) else None) /\
      completions w' =
        skipn ((if srs then 1 else 0) + (if rmf then 1 else 0))
          (completions w) /\
      NoDup (keys docs).
Proof.
  intros st [cs hs fs tr]. cbv zeta. unfold reply_at. run_loader.
  loader_cases st cs fs; intros u w' H; try discriminate H;
    inversion H; subst u w'; eexists; (split; [reflexivity|]);
    cbn [completions nth_error skipn Nat.add];
    (split; [vm_compute; reflexivity|]);
    (split; [vm_compute; reflexivity|]);
    (split; [reflexivity|]);
    vm_compute; repeat constructor; cbn [In];
    intuition discriminate.
Qed.

Lemma X6_witness :
  exists docs,
    fst (data_loading_node
           {| user_request := py "Add Bluetooth module";
              impacted_standards := [py "ISO 14971"];
              loaded_documents := [];
              audit_findings := [];
              final_report_content := [];
              messages := [] |}
           (world_of [Some (py "first reply"); Some (py "second reply")] []
              FileMissing))
    = Ok (loaded docs) /\
    dict_get docs (py "RMF") = Some (py "first reply").
Proof.
  set (st := {| user_request := py "Add Bluetooth module";
                impacted_standards := [py "ISO 14971"];
                loaded_documents := [];
                audit_findings := [];
                final_report_content := [];
                messages := [] |}).
  set (w := world_of [Some (py "first reply"); Some (py "second reply")] []
              FileMissing).
  destruct (data_loading_node st w) as [[u|e] w'] eqn:E;
    [|vm_compute in E; discriminate E].
  destruct (X6_documents_are_the_replies_in_order st w E)
    as (docs & Hu & _ & Hrmf & _).
  exists docs. split.
    vm_compute in E. inversion E; subst u. cbn in Hu. inversion Hu.
    reflexivity.
  - rewrite Hrmf. vm_compute. reflexivity.
Defined.

(* ===================================================================== *)
(** * More on the planner, and the planner with the loader *)
(* ===================================================================== *)

Section Pieces.

Variable sep : N.

Lemma split_length (s : str) :
  List.length (split sep s) = 1 + count_occ N.eq_dec s sep.
Proof.
  induction s as [|c s IH]; [reflexivity|]. cbn [split count_occ].
  destruct (N.eqb_spec c sep) as [E|E]; destruct (N.eq_dec c sep) as [E'|E'];
    try contradiction.
  - cbn [List.length]. rewrite IH. reflexivity.
  - pose proof (split_nonempty sep s) as Hn.
    destruct (split sep s) as [|p ps]; [congruence|]. exact IH.
Qed.

Lemma occurs_cons (m s : str) (c : N) : occurs m s -> occurs m (c :: s).
Proof. intros (a & b & ->). exists (c :: a), b. reflexivity. Qed.

Lemma occurs_trans (a b c : str) : occurs a b -> occurs b c -> occurs a c.
Proof.
  intros (x & y & ->) (x' & y' & ->). exists (x' ++ x), (y ++ y').
  rewrite <- !app_assoc. reflexivity.
Qed.

Lemma split_app_free (m b : str) :
  Forall (fun c => c <> sep) m ->
  exists p ps, split sep b = p :: ps /\ split sep (m ++ b) = (m ++ p) :: ps.
Proof.
  induction 1 as [|c m Hc _ (p & ps & Hb & IH)].
  - pose proof (split_nonempty sep b) as Hn. cbn [app].
    destruct (split sep b) as [|p ps]; [congruence|]. exists p, ps.
    split; reflexivity.
  - exists p, ps. split; [exact Hb|]. cbn [app split].
    destruct (N.eqb_spec c sep); [contradiction|]. rewrite IH. reflexivity.
Qed.

(** A text free of the separator that occurs in a string occurs in one of
    its pieces. *)
Lemma occurs_in_piece (m s : str) :
  Forall (fun c => c <> sep) m -> occurs m s ->
  exists piece, In piece (split sep s) /\ occurs m piece.
Proof.
  intros Hm (a & b & ->). induction a as [|c a (piece & Hin & Ho)].
  - destruct (split_app_free b Hm) as (p & ps & _ & E).
    cbn [app]. rewrite E. exists (m ++ p). split; [left; reflexivity|].
    exists [], p. reflexivity.
  - cbn [app split]. destruct (N.eqb c sep).
    + exists piece. split; [right; exact Hin | exact Ho].
    + destruct (split sep (a ++ m ++ b)) as [|p ps]; [contradiction|].
      destruct Hin as [<-|Hin].
      * exists (c :: p). split; [left; reflexivity | apply occurs_cons, Ho].
      * exists piece. split; [right; exact Hin | exact Ho].
Qed.

Lemma occurs_in_join (x : str) (l : list str) :
  In x l -> occurs x (join [sep] l).
Proof.
  induction l as [|y l IH]; [intros []|]. intros [->|Hin].
  - destruct l as [|z l].
    + exists [], []. rewrite app_nil_r. reflexivity.
    + exists [], ([sep] ++ join [sep] (z :: l)). reflexivity.
  - specialize (IH Hin). destruct l as [|z l]; [destruct Hin|].
    change (join [sep] (y :: z :: l))
      with (y ++ [sep] ++ join [sep] (z :: l)).
    destruct IH as (a & b & E).
    exists (y ++ [sep] ++ a), b. rewrite E, <- !app_assoc. reflexivity.
Qed.

Lemma piece_occurs (piece s : str) : In piece (split sep s) -> occurs piece s.
Proof.
  intros H. rewrite <- (join_split sep s). apply occurs_in_join, H.
Qed.

End Pieces.

Section Trimming.

Variable m : str.
Hypothesis m_nonempty : m <> [].
Hypothesis m_no_space : Forall (fun c => is_space c = false) m.

Lemma occurs_behind_space (c : N) (s : str) :
  is_space c = true -> occurs m (c :: s) -> occurs m s.
Proof.
  intros Hc (a & b & E). destruct a as [|x a].
  - destruct m as [|y m']; [congruence|]. inversion E; subst.
    inversion m_no_space; subst. congruence.
  - inversion E; subst. exists a, b. reflexivity.
Qed.

Lemma occurs_before_space (c : N) (s : str) :
  is_space c = true -> occurs m (s ++ [c]) -> occurs m s.
Proof.
  intros Hc (a & b & E).
  destruct (list_eq_dec N.eq_dec b []) as [->|Hb].
  - destruct (exists_last m_nonempty) as (m' & y & Em).
    rewrite app_nil_r, Em, app_assoc in E.
    apply app_inj_tail in E. destruct E as [_ <-].
    rewrite Em in m_no_space. apply Forall_app in m_no_space.
    destruct m_no_space as [_ Hy]. inversion Hy; subst. congruence.
  - destruct (exists_last Hb) as (b' & z & ->).
    rewrite !app_assoc in E. apply app_inj_tail in E. destruct E as [-> _].
    exists a, b'. rewrite app_assoc. reflexivity.
Qed.

Lemma occurs_before_spaces (r : str) :
  all_space r -> forall s, occurs m (s ++ r) -> occurs m s.
Proof.
  induction r as [|c r IH] using rev_ind; intros Hr s H.
  - rewrite app_nil_r in H. exact H.
  - apply Forall_app in Hr. destruct Hr as [Hr Hc]. inversion Hc; subst.
    apply IH; [exact Hr|]. rewrite app_assoc in H.
    eapply occurs_before_space; eassumption.
Qed.

Lemma occurs_behind_spaces (l : str) :
  all_space l -> forall s, occurs m (l ++ s) -> occurs m s.
Proof.
  induction 1 as [|c l Hc _ IH]; intros s H; [exact H|].
  apply IH. exact (occurs_behind_space Hc H).
Qed.

(** Trimming a piece neither hides nor brings about an occurrence. *)
Lemma occurs_strip (piece : str) : occurs m (strip piece) <-> occurs m piece.
Proof.
  destruct (strip_spec piece) as (l & r & E & Hl & Hr & _). split.
  - intros H. apply (occurs_trans H). exists l, r. exact E.
  - rewrite E at 1. intros H.
    apply (occurs_before_spaces Hr). apply (occurs_behind_spaces Hl). exact H.
Qed.

End Trimming.

Lemma markers_plain (key marker : str) :
  In (key, marker) document_markers -> plain marker.
Proof.
  unfold document_markers. cbn [In].
  intros [E|[E|[E|[]]]]; inversion E; subst; split;
    try discriminate; vm_compute; repeat constructor; discriminate.
Qed.

(** A marker is found in the planner's list exactly when it is found in the
    reply the list was cut from. *)
Lemma marker_in_pieces (marker reply : str) :
  plain marker ->
  any_contains marker (map strip (split comma reply)) = contains marker reply.
Proof.
  intros [Hne Hm].
  assert (Hsp : Forall (fun c => is_space c = false) marker)
    by (eapply Forall_impl; [|exact Hm]; cbn; tauto).
  assert (Hco : Forall (fun c => c <> comma) marker)
    by (eapply Forall_impl; [|exact Hm]; cbn; tauto).
  apply Bool.eq_iff_eq_true.
  rewrite any_contains_occurs, contains_occurs. split.
  - intros (s & Hin & Ho). apply in_map_iff in Hin.
    destruct Hin as (piece & <- & Hin).
    apply (proj1 (occurs_strip Hne Hsp piece)) in Ho.
    exact (occurs_trans Ho (piece_occurs _ _ _ Hin)).
  - intros Ho. destruct (occurs_in_piece Hco Ho) as (piece & Hin & Hp).
    exists (strip piece). split; [apply in_map; exact Hin|].
    apply (proj2 (occurs_strip Hne Hsp piece)). exact Hp.
Qed.

(** X7. The planner returns one standard more than the reply has commas,
    whatever lies between them: empty pieces and repeated names are kept. *)
Theorem X7_one_standard_more_than_commas :
  forall (st : ComplianceState) (w : World) (reply : str)
         (rest : list (option str)),
    completions w = Some reply :: rest ->
    exists standards_list,
      fst (orchestrator_planner_node st w) = Ok (planned standards_list) /\
      List.length standards_list = 1 + count_occ N.eq_dec reply comma.
Proof.
  intros st w reply rest Hw.
  exists (map strip (split comma reply)).
  rewrite (orchestrator_planner_node_run st w Hw).
  split; [reflexivity|]. rewrite length_map. apply split_length.
Qed.

Lemma X7_witness :
  exists standards_list,
    fst (orchestrator_planner_node sample_state
           (world_of [Some (py "IEC 62304,, IEC 62304")] [] FileMissing))
    = Ok (planned standards_list) /\
    List.length standards_list = 3.
Proof.
  destruct (X7_one_standard_more_than_commas sample_state
              (world_of [Some (py "IEC 62304,, IEC 62304")] [] FileMissing)
              eq_refl)
    as (l & Hrun & Hlen).
  exists l. split; [exact Hrun|]. rewrite Hlen. vm_compute. reflexivity.
Defined.

(** X8. Planner and loader together: a document is loaded exactly when its
    marker occurs somewhere in the planner's raw reply.  Cutting the reply at
    the commas and trimming the pieces changes nothing for the selection. *)
Theorem X8_documents_follow_the_raw_reply :
  forall (st : ComplianceState) (w : World) (reply : str)
         (rest : list (option str)) (u1 u2 : StateUpdate) (w1 w2 : World),
    completions w = Some reply :: rest ->
    orchestrator_planner_node st w = (Ok u1, w1) ->
    data_loading_node (merge st u1) w1 = (Ok u2, w2) ->
    exists docs,
      upd_loaded_documents u2 = Some docs /\
      keys docs =
        map fst (filter (fun km => contains (snd km) reply) document_markers).
Proof.
  intros st w reply rest u1 u2 w1 w2 Hw Hp Hl.
  rewrite (orchestrator_planner_node_run st w Hw) in Hp.
  inversion Hp; subst u1 w1. clear Hp.
  match type of Hl with
  | data_loading_node ?s ?w0 = _ =>
      pose proof (data_loading_node_cases s w0) as C
  end.
  rewrite Hl in C. destruct C as (ti & srs & rmf & _ & -> & _).
  eexists. split; [reflexivity|]. rewrite keys_docs_for.
  unfold selected_keys. f_equal.
  cbn [merge impacted_standards overwrite upd_impacted_standards].
  apply filter_ext_in. intros [key marker] Hin. cbn [snd].
  apply marker_in_pieces. exact (markers_plain Hin).
Qed.

Lemma X8_witness :
  exists u1 w1 u2 w2 docs,
    orchestrator_planner_node sample_request_state
      (world_of [Some (py "Impacted: IEC 62304 (clause 5), and ,ISO 13485.");
                 Some (py "SRS text")] [] FileMissing) = (Ok u1, w1) /\
    data_loading_node (merge sample_request_state u1) w1 = (Ok u2, w2) /\
    upd_loaded_documents u2 = Some docs /\
    keys docs = [py "SRS"; py "QMS"].
Proof.
  set (w := world_of [Some (py "Impacted: IEC 62304 (clause 5), and ,ISO 13485.");
                      Some (py "SRS text")] [] FileMissing).
  destruct (orchestrator_planner_node sample_request_state w)
    as [[u1|e1] w1] eqn:E1; [|vm_compute in E1; discriminate E1].
  destruct (data_loading_node (merge sample_request_state u1) w1)
    as [[u2|e2] w2] eqn:E2;
    [|vm_compute in E1; inversion E1; subst u1 w1;
      vm_compute in E2; discriminate E2].
  destruct (X8_documents_follow_the_raw_reply sample_request_state w
              eq_refl E1 E2) as (docs & Hu & Hk).
  exists u1, w1, u2, w2, docs.
  split; [reflexivity|]. split; [exact E2|]. split; [exact Hu|].
  rewrite Hk. vm_compute. reflexivity.
Defined.

(* ===================================================================== *)
(** * More on the extraction of the summary *)
(* ===================================================================== *)

(** The summary is the text of a message of the history that carries the
    sentinel, or else the fallback, and then no message carries it. *)
Lemma final_summary_cases (history : list chat_message) :
  (exists m, In m history /\ final_summary_of history = content m /\
             contains SENTINEL (content m) = true) \/
  (final_summary_of history = no_summary /\
   forallb (fun x => negb (contains SENTINEL (content x))) history = true).
Proof.
  unfold final_summary_of.
  destruct (find is_termination_msg (rev history)) as [m|] eqn:E.
  - left. apply find_some in E. destruct E as [Hin Hm].
    exists m. split; [apply in_rev; exact Hin|]. split; [reflexivity | exact Hm].
  - right. split; [reflexivity|]. apply forallb_forall. intros x Hx.
    apply in_rev in Hx. pose proof (find_none _ _ E x Hx) as Hf.
    unfold is_termination_msg in Hf. rewrite Hf. reflexivity.
Qed.

Lemma fallback_has_no_sentinel : contains SENTINEL no_summary = false.
Proof. vm_compute. reflexivity. Qed.

(** X9. Whatever history the scheduler hands back, the coordinator returns:
    the summary it logs is the fallback exactly when no message carries the
    sentinel, and otherwise it is the text of a message of the history, and
    it still carries the sentinel that the finding's details have lost. *)
Theorem X9_fallback_only_without_sentinel :
  forall (st : ComplianceState) (w : World) (history : list chat_message)
         (rest : list (option (list chat_message))),
    chats w = Some history :: rest ->
    exists summary,
      fst (autogen_auditor_node st w) = Ok (audited summary) /\
      (summary = py "No summary found." <->
       forallb (fun x => negb (contains SENTINEL (content x))) history = true) /\
      (summary = py "No summary found." \/
       (contains SENTINEL summary = true /\
        exists m, In m history /\ summary = content m)).
Proof.
  intros st w history rest Hw. exists (final_summary_of history).
  rewrite (autogen_auditor_node_run st w Hw).
  split; [reflexivity|].
  destruct (final_summary_cases history) as [(m & Hin & E & Hm)|[E Hall]].
  - split.
    + split.
      * intros E'. rewrite E in E'. rewrite E' in Hm.
        change (py "No summary found.") with no_summary in Hm.
        rewrite fallback_has_no_sentinel in Hm. discriminate Hm.
      * intros Hall. rewrite forallb_forall in Hall.
        specialize (Hall m Hin). rewrite Hm in Hall. discriminate Hall.
    + right. rewrite E. split; [exact Hm|]. exists m. auto.
  - split; [|left; exact E]. split; [intros _; exact Hall | intros _; exact E].
Qed.

Lemma X9_witness :
  exists summary,
    fst (autogen_auditor_node sample_state
           (world_of [] [Some sample_opening] FileMissing))
    = Ok (audited summary) /\
    summary <> py "No summary found.".
Proof.
  destruct (X9_fallback_only_without_sentinel sample_state
              (world_of [] [Some sample_opening] FileMissing) eq_refl)
    as (summary & Hrun & Hiff & _).
  exists summary. split; [exact Hrun|].
  intros E. apply (proj1 Hiff) in E. vm_compute in E. discriminate E.
Defined.

(** X10. The request the coordinator sends ends with the sentinel.  So when
    the history opens with that request and no later message carries the
    sentinel, the summary is the coordinator's own request, and the finding
    is that request without the sentinel: not the fallback, and nothing an
    auditor said. *)
Theorem X10_request_is_echoed_as_finding :
  forall (st : ComplianceState) (w : World) (opening : chat_message)
         (replies : list chat_message)
         (rest : list (option (list chat_message))),
    chats w = Some (opening :: replies) :: rest ->
    content opening = audit_prompt_for st ->
    forallb (fun x => negb (contains SENTINEL (content x))) replies = true ->
    fst (autogen_auditor_node st w) = Ok (audited (audit_prompt_for st)) /\
    In (InitiatedChat groupchat llm_config_autogen (audit_prompt_for st))
       (trace (snd (autogen_auditor_node st w))) /\
    audit_prompt_for st <> py "No summary found.".
Proof.
  intros st w opening replies rest Hw Hc Hr.
  assert (Hs : contains SENTINEL (content opening) = true).
  { rewrite Hc. apply contains_occurs. apply audit_prompt_carries_sentinel. }
  rewrite (autogen_auditor_node_run st w Hw). cbn [fst snd trace].
  pose proof (final_summary_last [] replies opening Hs Hr) as Hf.
  cbn [app] in Hf. rewrite Hf, Hc.
  split; [reflexivity|]. split.
  - apply in_or_app. right. left. reflexivity.
  - intros E. rewrite Hc, E in Hs.
    change (py "No summary found.") with no_summary in Hs.
    rewrite fallback_has_no_sentinel in Hs. discriminate Hs.
Qed.

Lemma X10_witness :
  fst (autogen_auditor_node sample_state
         (world_of []
            [Some [ {| role := py "assistant";
                       speaker := py "Compliance_Manager";
                       content := audit_prompt_for sample_state |};
                    turn "IEC62304_Auditor" "Clause 5: COMPLIANT." ]]
            FileMissing))
  = Ok (audited (audit_prompt_for sample_state)).
Proof.
  exact (proj1 (X10_request_is_echoed_as_finding (st := sample_state)
                  (world_of []
                     [Some [ {| role := py "assistant";
                                speaker := py "Compliance_Manager";
                                content := audit_prompt_for sample_state |};
                             turn "IEC62304_Auditor" "Clause 5: COMPLIANT." ]]
                     FileMissing)
                  eq_refl eq_refl eq_refl)).
Defined.

(* ===================================================================== *)
(** * More on the read loop *)
(* ===================================================================== *)

Section ReadLoopRuns.

(** [Break] is the answer to an exit command and to nothing else. *)
Lemma loop_body_break (line : str) (w w1 : World) :
  loop_body line w = (Ok Break, w1) -> is_exit_command (strip line).
Proof.
  intros H.
  destruct (str_in (lower (strip line)) [py "quit"; py "exit"]) eqn:E.
  - apply command_recognised. exact E.
  - exfalso. apply command_not_recognised in E.
    destruct (strip line) as [|c t] eqn:Es.
    + rewrite (loop_body_empty w line Es) in H. discriminate H.
    + assert (Hne : strip line <> []) by (rewrite Es; discriminate).
      rewrite <- Es in E. rewrite (loop_body_run w line Hne E) in H.
      destruct (app_invoke (initial_state_of (strip line))
                  (log (Wrote (Line (starting_line (strip line)))) w))
        as [[final|e] w2]; discriminate H.
Qed.

Lemma log_trace (ev : event) (w : World) :
  log ev w =
  {| completions := completions w; chats := chats w; files := files w;
     trace := trace w ++ [ev] |}.
Proof. reflexivity. Qed.

End ReadLoopRuns.

(** X11. Nothing behind the first exit command is ever read: the loop, and
    the program, behave on the lines up to and including the command as on
    the whole input. *)
Theorem X11_input_after_exit_is_not_read :
  forall (before after : list str) (cmd : str) (w : World),
    is_exit_command (strip cmd) ->
    read_loop (before ++ cmd :: after) w = read_loop (before ++ [cmd]) w /\
    main (before ++ cmd :: after) w = main (before ++ [cmd]) w.
Proof.
  intros before after cmd w Hcmd.
  assert (Hloop : forall w0, read_loop (before ++ cmd :: after) w0
                             = read_loop (before ++ [cmd]) w0).
  { induction before as [|line before IH]; intros w0.
    - cbn [app]. rewrite !read_loop_step.
      rewrite (loop_body_exit (log prompted w0) cmd Hcmd). reflexivity.
    - cbn [app]. rewrite !read_loop_step.
      destruct (loop_body line (log prompted w0)) as [[[|]|e] w1];
        try reflexivity. apply IH. }
  split; [apply Hloop|].
  unfold main, bind.
  destruct (print (py "Medical Device Compliance Agent") w) as [[[]|e] w1];
    [|reflexivity].
  destruct (print (py "Type 'quit' or 'exit' to stop" ++ nl) w1)
    as [[[]|e] w2]; [|reflexivity].
  apply Hloop.
Qed.

Lemma X11_witness :
  read_loop [py "   "; py " EXIT"; py "Add Bluetooth module"]
    sample_session_world
  = read_loop [py "   "; py " EXIT"] sample_session_world.
Proof.
  refine (proj1 (X11_input_after_exit_is_not_read [py "   "]
                   [py "Add Bluetooth module"] (py " EXIT")
                   sample_session_world _)).
  apply command_recognised. vm_compute. reflexivity.
Defined.

(** X12. Input that ends after blank lines only: no pipeline run is started
    and nothing is printed but the prompt, once per line and once more; then
    [input] finds nothing to read and its [EOFError] ends the program. *)
Theorem X12_blank_input_ends_in_eof :
  forall (lines : list str) (w : World),
    Forall (fun line => strip line = []) lines ->
    read_loop lines w =
    (Raised EOFError,
     {| completions := completions w; chats := chats w; files := files w;
        trace := trace w ++ repeat prompted (S (List.length lines)) |}).
Proof.
  intros lines w H. revert w.
  induction H as [|line lines Hline _ IH]; intros w.
  - destruct w as [cs hs fs tr]. reflexivity.
  - rewrite read_loop_step, (loop_body_empty (log prompted w) line Hline), IH.
    rewrite log_trace. cbn [completions chats files trace List.length repeat].
    rewrite <- app_assoc. reflexivity.
Qed.

Lemma X12_witness :
  read_loop [[]; py "  "] (world_of [] [] FileMissing)
  = (Raised EOFError,
     {| completions := []; chats := [];
        files := files (world_of [] [] FileMissing);
        trace := [prompted; prompted; prompted] |}).
Proof.
  apply (@X12_blank_input_ends_in_eof [[]; py "  "]
           (world_of [] [] FileMissing)).
  repeat constructor.
Defined.

(** X13. The loop ends normally only on an exit command: when it does, the
    input holds a line that, stripped, is "quit" or "exit" in some letter
    case, and no line before it is one. *)
Theorem X13_normal_end_needs_exit_command :
  forall (lines : list str) (w w' : World),
    read_loop lines w = (Ok tt, w') ->
    exists before cmd after,
      lines = before ++ cmd :: after /\
      is_exit_command (strip cmd) /\
      Forall (fun line => ~ is_exit_command (strip line)) before.
Proof.
  intros lines w w'. revert w.
  induction lines as [|line lines IH]; intros w H.
  - destruct w as [cs hs fs tr]. discriminate H.
  - rewrite read_loop_step in H.
    destruct (loop_body line (log prompted w)) as [[[|]|e] w1] eqn:E.
    + exists [], line, lines. split; [reflexivity|].
      split; [exact (loop_body_break _ _ E) | constructor].
    + destruct (IH _ H) as (before & cmd & after & -> & Hcmd & Hbefore).
      exists (line :: before), cmd, after. split; [reflexivity|].
      split; [exact Hcmd|]. constructor; [|exact Hbefore].
      intros Hc. rewrite (loop_body_exit (log prompted w) line Hc) in E.
      discriminate E.
    + discriminate H.
Qed.

Lemma X13_witness :
  exists before cmd after,
    [py "   "; py " EXIT"; py "Add Bluetooth module"]
    = before ++ cmd :: after /\
    is_exit_command (strip cmd).
Proof.
  destruct (@X13_normal_end_needs_exit_command
              [py "   "; py " EXIT"; py "Add Bluetooth module"]
              sample_session_world
              (snd (read_loop [py "   "; py " EXIT";
                               py "Add Bluetooth module"]
                      sample_session_world))
              ltac:(vm_compute; reflexivity))
    as (before & cmd & after & E & Hcmd & _).
  exists before, cmd, after. split; [exact E | exact Hcmd].
Defined.

(** X14. A successful turn of the loop ends by printing, between the two
    banners, the report for the stripped line: its trigger is the line
    without the white space around it, and it lists exactly one finding. *)
Theorem X14_loop_prints_report_of_stripped_line :
  forall (line : str) (w w' : World),
    strip line <> [] ->
    loop_body line w = (Ok Continue, w') ->
    exists before standards summary,
      trace w' =
        before
        ++ [ Wrote (Line banner_open);
             Wrote (Line (report_template_of (strip line) standards
                            [finding_of summary]));
             Wrote (Line banner_close) ].
Proof.
  intros line w w' Hne H.
  assert (Hcmd : ~ is_exit_command (strip line)).
  { intros Hc. rewrite (loop_body_exit w line Hc) in H. discriminate H. }
  rewrite (loop_body_run w line Hne Hcmd) in H.
  destruct (app_invoke (initial_state_of (strip line))
              (log (Wrote (Line (starting_line (strip line)))) w))
    as [[final|e] w1] eqn:E; [|discriminate H].
  inversion H; subst w'. clear H.
  destruct (app_invoke_ok _ _ E) as (reply & srs & rmf & history & _ & _ & Ef).
  cbv zeta in Ef. subst final.
  exists (trace w1), (map strip (split comma reply)), (final_summary_of history).
  unfold report_printed. rewrite !log_trace. cbn [trace].
  rewrite <- !app_assoc. reflexivity.
Qed.

Lemma X14_witness :
  exists before standards summary,
    trace (snd (loop_body (py " Add Bluetooth module ") sample_session_world))
    = before
      ++ [ Wrote (Line banner_open);
           Wrote (Line (report_template_of (py "Add Bluetooth module")
                          standards [finding_of summary]));
           Wrote (Line banner_close) ].
Proof.
  destruct (@X14_loop_prints_report_of_stripped_line
              (py " Add Bluetooth module ") sample_session_world
              (snd (loop_body (py " Add Bluetooth module ")
                      sample_session_world))
              ltac:(vm_compute; discriminate)
              ltac:(vm_compute; reflexivity))
    as (before & standards & summary & E).
  exists before, standards, summary. exact E.
Defined.

(* ===================================================================== *)
(** * More on the report *)
(* ===================================================================== *)

Lemma line_of_join (x : str) (l : list str) :
  In x l -> occurs (nl ++ x ++ nl) (nl ++ join nl l ++ nl).
Proof.
  induction l as [|y l IH]; [intros []|]. intros [->|Hin].
  - destruct l as [|z l].
    + exists [], []. rewrite app_nil_r. reflexivity.
    + exists [], (join nl (z :: l) ++ nl).
      change (join nl (x :: z :: l)) with (x ++ nl ++ join nl (z :: l)).
      cbn [app]. rewrite <- !app_assoc. reflexivity.
  - destruct l as [|z l]; [destruct Hin|].
    destruct (IH Hin) as (a & b & E).
    change (join nl (y :: z :: l)) with (y ++ nl ++ join nl (z :: l)).
    exists (nl ++ y ++ a), b.
    rewrite <- !app_assoc. rewrite <- !app_assoc in E.
    do 2 f_equal. exact E.
Qed.

(** X15. Every finding of the state is a line of the report: a dash, a
    space and the finding's details, whatever they are, between two line
    breaks. *)
Theorem X15_every_finding_is_a_bullet :
  forall (st : ComplianceState) (w : World) (f : finding),
    In f (audit_findings st) ->
    exists report,
      fst (report_compiler_node st w) = Ok (compiled report) /\
      occurs (nl ++ py "- " ++ details f ++ nl) report.
Proof.
  intros st w f Hin. eexists.
  rewrite report_compiler_node_run. split; [reflexivity|].
  assert (Hb : In (py "- " ++ details f)
                 (map (fun f => py "- " ++ details f) (audit_findings st)))
    by (apply in_map_iff; exists f; auto).
  apply line_of_join in Hb. rewrite <- app_assoc in Hb.
  apply (occurs_trans Hb). unfold report_template_of.
  exists (nl
          ++ py "# Medical Device Compliance Audit Report" ++ nl
          ++ nl
          ++ py "**Date:** 2026-01-27" ++ nl
          ++ py "**Trigger:** User Request - " ++ dquote ++ user_request st
          ++ dquote ++ nl
          ++ py "**Scope:** " ++ join (py ", ") (impacted_standards st) ++ nl
          ++ nl
          ++ py "## Executive Summary" ++ nl
          ++ py "An audit was conducted on the updated technical documentation. Below are the findings from the automated specialist agents." ++ nl
          ++ nl
          ++ py "## Audit Findings Summary" ++ nl).
  eexists. rewrite <- !app_assoc. reflexivity.
Qed.

Lemma X15_witness :
  exists report,
    fst (report_compiler_node
           (merge sample_state (audited (py "COMPLIANT AUDIT_COMPLETE")))
           (world_of [] [] FileMissing))
    = Ok (compiled report) /\
    occurs (nl ++ py "- COMPLIANT" ++ nl) report.
Proof.
  destruct (X15_every_finding_is_a_bullet
              (merge sample_state (audited (py "COMPLIANT AUDIT_COMPLETE")))
              (world_of [] [] FileMissing)
              (finding_of (py "COMPLIANT AUDIT_COMPLETE"))
              (or_introl eq_refl))
    as (report & Hrun & Ho).
  exists report. split; [exact Hrun|]. exact Ho.
Defined.

(* ===================================================================== *)
(** * What the stages send, and in which order *)
(* ===================================================================== *)

(** X16. The two document tools are called in a fixed order and each with
    its own instruction: in a run of the loader that returns, the requests
    to the completion service are the one for the SRS, when its marker is
    listed, followed by the one for the RMF, when its marker is listed; both
    address the same model and carry the same combined input. *)
Theorem X16_generation_calls_in_order :
  forall (st : ComplianceState) (w : World) (u : StateUpdate) (w' : World),
    data_loading_node st w = (Ok u, w') ->
    exists technical_input evs,
      technical_input_of (files w spec_file_path) (user_request st)
        = Some technical_input /\
      trace w' = trace w ++ evs /\
      filter is_completion evs =
        (if any_contains (py "62304") (impacted_standards st)
         then [Completion (py "gpt-5-nano-2025-08-07") srs_system
                 (combined_input_of technical_input (user_request st))]
         else [])
        ++ (if any_contains (py "14971") (impacted_standards st)
            then [Completion (py "gpt-5-nano-2025-08-07") rmf_system
                    (combined_input_of technical_input (user_request st))]
            else []).
Proof.
  intros st w u w' H. pose proof (data_loading_node_cases st w) as C.
  rewrite H in C. destruct C as (ti & srs & rmf & Hti & _ & Htr).
  exists ti. eexists. split; [exact Hti|]. split; [exact Htr|].
  unfold loader_events.
  destruct (any_contains (py "62304") (impacted_standards st)),
           (any_contains (py "14971") (impacted_standards st)),
           (any_contains (py "13485") (impacted_standards st)); reflexivity.
Qed.

Lemma X16_witness :
  exists evs,
    trace (snd (data_loading_node
                  {| user_request := py "Add Bluetooth module";
                     impacted_standards := [py "ISO 14971, IEC 62304"];
                     loaded_documents := [];
                     audit_findings := [];
                     final_report_content := [];
                     messages := [] |}
                  (world_of [Some (py "SRS text"); Some (py "RMF text")] []
                     FileMissing))) = evs /\
    map (fun ev => match ev with
                   | Completion _ system _ => system
                   | _ => []
                   end) (filter is_completion evs)
    = [srs_system; rmf_system].
Proof.
  set (st := {| user_request := py "Add Bluetooth module";
                impacted_standards := [py "ISO 14971, IEC 62304"];
                loaded_documents := [];
                audit_findings := [];
                final_report_content := [];
                messages := [] |}).
  set (w := world_of [Some (py "SRS text"); Some (py "RMF text")] []
              FileMissing).
  destruct (data_loading_node st w) as [[u|e] w'] eqn:E;
    [|vm_compute in E; discriminate E].
  destruct (X16_generation_calls_in_order st w E)
    as (ti & evs & _ & Htr & Hf).
  exists evs. split; [exact Htr|]. rewrite Hf. reflexivity.
Defined.

Section JoinedTexts.

Variable sep : str.

Lemma occurs_in_joined (x : str) (l : list str) :
  In x l -> occurs x (join sep l).
Proof.
  induction l as [|y l IH]; [intros []|]. intros [->|Hin].
  - destruct l as [|z l].
    + exists [], []. rewrite app_nil_r. reflexivity.
    + exists [], (sep ++ join sep (z :: l)). reflexivity.
  - specialize (IH Hin). destruct l as [|z l]; [destruct Hin|].
    change (join sep (y :: z :: l)) with (y ++ sep ++ join sep (z :: l)).
    destruct IH as (a & b & E).
    exists (y ++ sep ++ a), b. rewrite E, <- !app_assoc. reflexivity.
Qed.

End JoinedTexts.

Lemma occurs_within (x a s b : str) : occurs x s -> occurs x (a ++ s ++ b).
Proof.
  intros (p & q & ->). exists (a ++ p), (q ++ b).
  rewrite <- !app_assoc. reflexivity.
Qed.

(** X17. The request the coordinator sends to the scheduler carries every
    loaded document in full, under a heading that names its key, and every
    impacted standard. *)
Theorem X17_audit_request_carries_the_documents :
  forall (st : ComplianceState) (w : World),
    exists request,
      In (InitiatedChat groupchat llm_config_autogen request)
         (trace (snd (autogen_auditor_node st w))) /\
      (forall key text,
          In (key, text) (loaded_documents st) ->
          occurs (py "--- Document: " ++ key ++ py " ---" ++ nl ++ text)
            request) /\
      (forall standard,
          In standard (impacted_standards st) -> occurs standard request).
Proof.
  intros st w. exists (audit_prompt_for st). split.
  - pose proof (autogen_auditor_node_cases st w) as C.
    destruct (autogen_auditor_node st w) as [[u|e] w'].
    + destruct C as (h & r & _ & _ & _ & _ & _ & Htr). cbn [snd].
      rewrite Htr. apply in_or_app. right. right. left. reflexivity.
    + destruct C as (_ & _ & _ & _ & Htr). cbn [snd].
      rewrite Htr. apply in_or_app. right. right. left. reflexivity.
  - unfold audit_prompt_for, audit_prompt_of. split.
    + intros key text Hin.
      assert (Hd : In (py "--- Document: " ++ key ++ py " ---" ++ nl ++ text)
                     (map (fun kv => py "--- Document: " ++ fst kv
                                     ++ py " ---" ++ nl ++ snd kv)
                          (loaded_documents st)))
        by (apply in_map_iff; exists (key, text); auto).
      apply (occurs_in_joined (nl ++ nl)) in Hd.
      destruct Hd as (p & q & E). rewrite E.
      exists (nl
              ++ indent4 ++ py "Please conduct a compliance audit for only the following standards: "
              ++ join (py ", ") (impacted_standards st) ++ py "." ++ nl
              ++ indent4 ++ nl
              ++ indent4 ++ py "Here is the documentation to review:" ++ nl
              ++ indent4 ++ p).
      eexists. rewrite <- !app_assoc. reflexivity.
    + intros standard Hin.
      apply (occurs_in_joined (py ", ")) in Hin.
      destruct Hin as (p & q & E). rewrite E.
      exists (nl
              ++ indent4 ++ py "Please conduct a compliance audit for only the following standards: "
              ++ p).
      eexists. rewrite <- !app_assoc. reflexivity.
Qed.

(** X18. The events of a pipeline run that returns are, in this order and
    nothing else: the planner's banner, its one request and the list it
    prints; the events of the loader for the planned standards; the
    coordinator's banner and its one chat; the compiler's two lines.  So the
    stages run once each in the order of the edges, one chat is started, and
    the completion service is asked at most three times. *)
Theorem X18_pipeline_events_in_stage_order :
  forall (st : ComplianceState) (w : World) (final : ComplianceState)
         (w' : World),
    app_invoke st w = (Ok final, w') ->
    exists technical_input request,
      technical_input_of (files w spec_file_path) (user_request st)
        = Some technical_input /\
      trace w' =
        trace w
        ++ [ planner_banner;
             Completion llm_langchain planner_system (user_request st);
             Wrote (LineOfList (py "Impacted Standards identified: ")
                      (impacted_standards final)) ]
        ++ loader_events (impacted_standards final)
             (files w spec_file_path)
             (combined_input_of technical_input (user_request st))
        ++ [ auditor_banner;
             InitiatedChat groupchat llm_config_autogen request ]
        ++ compiler_events /\
      List.length (filter is_initiated_chat (trace w')) =
        List.length (filter is_initiated_chat (trace w)) + 1 /\
      List.length (filter is_completion (trace w')) <=
        List.length (filter is_completion (trace w)) + 3.
Proof.
  intros st w final w' H.
  rewrite app_invoke_stages in H. unfold bind in H.
  pose proof (orchestrator_planner_node_cases st w) as P.
  destruct (orchestrator_planner_node st w) as [[u1|e1] w1]; [|discriminate].
  destruct P as (reply & rest & _ & -> & _ & _ & Hf1 & Ht1).
  set (s1 := merge st (planned (map strip (split comma reply)))) in *.
  pose proof (data_loading_node_cases s1 w1) as L.
  destruct (data_loading_node s1 w1) as [[u2|e2] w2]; [|discriminate].
  destruct L as (ti & srs & rmf & Hti & -> & Ht2).
  set (s2 := merge s1 (loaded (docs_for (impacted_standards s1) srs rmf))) in *.
  pose proof (autogen_auditor_node_cases s2 w2) as A.
  destruct (autogen_auditor_node s2 w2) as [[u3|e3] w3]; [|discriminate].
  destruct A as (history & hrest & _ & -> & _ & _ & _ & Ht3).
  rewrite report_compiler_node_run in H. inversion H; subst final w'. clear H.
  rewrite Hf1 in Hti, Ht2.
  exists ti, (audit_prompt_for s2).
  split; [exact Hti|].
  cbn [trace merge planned loaded audited compiled overwrite
       upd_user_request upd_impacted_standards upd_loaded_documents
       upd_audit_findings upd_final_report_content upd_messages
       user_request impacted_standards] in *.
  assert (Etr : trace w3 ++ compiler_events =
                trace w
                ++ [ planner_banner;
                     Completion llm_langchain planner_system (user_request st);
                     Wrote (LineOfList (py "Impacted Standards identified: ")
                              (map strip (split comma reply))) ]
                ++ loader_events (map strip (split comma reply))
                     (files w spec_file_path)
                     (combined_input_of ti (user_request st))
                ++ [ auditor_banner;
                     InitiatedChat groupchat llm_config_autogen
                       (audit_prompt_for s2) ]
                ++ compiler_events).
  { rewrite Ht3, Ht2, Ht1, <- !app_assoc. reflexivity. }
  split; [exact Etr|]. rewrite Etr. clear Etr Ht1 Ht2 Ht3.
  rewrite !filter_app, !length_app. unfold loader_events.
  destruct (any_contains (py "62304") (map strip (split comma reply))),
           (any_contains (py "14971") (map strip (split comma reply))),
           (any_contains (py "13485") (map strip (split comma reply)));
    cbn [filter app is_initiated_chat is_completion List.length
         planner_banner auditor_banner compiler_events];
    split; lia.
Qed.

Lemma X18_witness :
  exists final w',
    app_invoke sample_request_state sample_session_world = (Ok final, w') /\
    List.length (filter is_initiated_chat (trace w')) = 1 /\
    List.length (filter is_completion (trace w')) <= 3.
Proof.
  destruct (app_invoke sample_request_state sample_session_world)
    as [[final|e] w'] eqn:E; [|vm_compute in E; discriminate E].
  destruct (X18_pipeline_events_in_stage_order sample_request_state
              sample_session_world E)
    as (ti & request & _ & _ & Hchat & Hcompl).
  exists final, w'. split; [reflexivity|].
  split; [exact Hchat | exact Hcompl].
Defined.
